(** * ACPI S-state transitions on x86: [suspend_thread] and [arch_system_powerctl]

    A shallow embedding of kernel/syscalls/syscalls_system_x86.cpp.

    The two functions of the file are sequences of calls into the rest of the
    kernel (the real-mode bootstrap allocator, ACPICA, the interrupt
    primitives, the thread API).  They are embedded as computations of a small
    monad that threads the machine state, records every collaborator call in
    order, and stops at a failed assertion.  What a collaborator answers is
    read from a [Platform] record, so that every statement below quantifies
    over all possible answers. *)

From Stdlib Require Import ZArith List Bool String Lia.
Import ListNotations.
Local Open Scope Z_scope.

(** ** Status codes and constants of the headers *)

Definition zx_status_t := Z.
Definition ACPI_STATUS := Z.
Definition paddr_t := Z.
Definition cpu_mask_t := Z.

(** The exit statuses of section 6 of the specification.  zircon/errors.h is
    not part of the sources at hand; the numbers are the ones of the Zircon
    ABI and the development only relies on their being pairwise distinct. *)

(** Modelled from the spec: the exit status "success". *)
Definition ZX_OK : zx_status_t := 0.

(** Modelled from the spec: the exit status "internal-error". *)
Definition ZX_ERR_INTERNAL : zx_status_t := -1.

(** Modelled from the spec: the exit status "unsupported-command". *)
Definition ZX_ERR_NOT_SUPPORTED : zx_status_t := -2.

(** Modelled from the spec: the exit status "resource-exhaustion (execution
    context could not be created)". *)
Definition ZX_ERR_NO_MEMORY : zx_status_t := -4.

(** Modelled from the spec: the exit status "invalid-arguments". *)
Definition ZX_ERR_INVALID_ARGS : zx_status_t := -10.

(** Modelled from the spec: the exit status "bad-state". *)
Definition ZX_ERR_BAD_STATE : zx_status_t := -20.

(** Modelled from the spec: the success status of the firmware interface
    (acpica/acexcep.h, not part of the sources at hand). *)
Definition AE_OK : ACPI_STATUS := 0.

(** Modelled from the spec: "only one command value is recognized"
    (zircon/syscalls/system.h, not part of the sources at hand). *)
Definition ZX_SYSTEM_POWERCTL_ACPI_TRANSITION_S_STATE : Z := 3.

(** Modelled from the spec: the join is made with "an unbounded wait"
    (zircon/types.h, not part of the sources at hand). *)
Definition ZX_TIME_INFINITE : Z := 2 ^ 64 - 1.

(** Modelled from the spec: the mask of one processing unit has the bit of
    its number set (kernel/cpu.h, not part of the sources at hand). *)
Definition cpu_num_to_mask (num : Z) : cpu_mask_t := Z.shiftl 1 num mod 2 ^ 32.

(** The number of processing units a mask reports, over the 32 bits of a
    [cpu_mask_t]. *)
Definition online_count (mask : cpu_mask_t) : nat :=
  List.length (filter (Z.testbit mask) (map Z.of_nat (seq 0 32))).

Notation "a != b" := (negb (Z.eqb a b)) (at level 70, no associativity).

(** ** Data *)

(** [zx_system_powerctl_arg_t], member [acpi_transition_s_state]: three
    [uint8_t] fields. *)
Record zx_system_powerctl_arg_t := {
  target_s_state : Z;
  sleep_type_a : Z;
  sleep_type_b : Z
}.

Definition uint8 (v : Z) : Prop := 0 <= v < 256.

(** The two [struct x86_realmode_entry_data_registers regs] locals of the
    file, and pointers to them. *)
Inductive regs_local : Type :=
| suspend_thread_regs
| arch_system_powerctl_regs.

Inductive regs_ptr : Type :=
| nullptr
| address_of (v : regs_local).

(** The collaborators whose bodies the orchestration treats as opaque. *)
Inductive opaque : Type :=
| op_platform_suspend
| op_arch_suspend
| op_x86_acpi_transition_s_state
| op_arch_resume
| op_platform_resume
| op_timer_thaw_percpu.

(** One collaborator call, with its arguments and what it answered. *)
Inductive Event : Type :=
| E_mp_get_online_mask (mask : cpu_mask_t)
| E_thread_create (name : string) (created : bool)
| E_thread_resume (status : zx_status_t)
| E_thread_join (deadline : Z) (status : zx_status_t) (retcode : zx_status_t)
| E_x86_bootstrap16_acquire (status : zx_status_t) (bootstrap_ip : paddr_t)
| E_x86_bootstrap16_release
| E_AcpiGetTable (status : ACPI_STATUS)
| E_AcpiHwSetFirmwareWakingVector (address : paddr_t) (status : ACPI_STATUS)
| E_arch_disable_ints
| E_arch_enable_ints
| E_arch_ints_disabled (answer : bool)
| E_platform_suspend
| E_arch_suspend
| E_x86_acpi_transition_s_state (regs : regs_ptr) (target a b : Z) (status : ACPI_STATUS)
| E_arch_resume
| E_platform_resume
| E_timer_thaw_percpu.

(** The part of the machine the orchestration acts on. *)
Record Machine := {
  ints_enabled : bool;          (* interrupt flag of the running unit *)
  waking_vector : paddr_t;      (* firmware waking vector of the FACS *)
  bootstrap_held : bool;        (* the real-mode bootstrap resource is held *)
  registers_ptr : regs_ptr      (* bootstrap_data->registers_ptr *)
}.

Definition set_ints (b : bool) (m : Machine) : Machine :=
  {| ints_enabled := b; waking_vector := waking_vector m;
     bootstrap_held := bootstrap_held m; registers_ptr := registers_ptr m |}.

Definition set_waking_vector (a : paddr_t) (m : Machine) : Machine :=
  {| ints_enabled := ints_enabled m; waking_vector := a;
     bootstrap_held := bootstrap_held m; registers_ptr := registers_ptr m |}.

Definition set_bootstrap_held (b : bool) (m : Machine) : Machine :=
  {| ints_enabled := ints_enabled m; waking_vector := waking_vector m;
     bootstrap_held := b; registers_ptr := registers_ptr m |}.

Definition set_registers_ptr (q : regs_ptr) (m : Machine) : Machine :=
  {| ints_enabled := ints_enabled m; waking_vector := waking_vector m;
     bootstrap_held := bootstrap_held m; registers_ptr := q |}.

(** What the collaborators answer during one request. *)
Record Platform := {
  online_mask : cpu_mask_t;             (* mp_get_online_mask() *)
  thread_created : bool;                (* thread_create() returned non-null *)
  thread_resume_status : zx_status_t;
  thread_join_status : zx_status_t;
  acquire_status : zx_status_t;         (* x86_bootstrap16_acquire() *)
  acquire_ip : paddr_t;                 (*   its bootstrap_ip result *)
  get_table_status : ACPI_STATUS;       (* AcpiGetTable(FACS) *)
  set_vector_status : ACPI_STATUS;      (* arming the waking vector *)
  transition_status : ACPI_STATUS;      (* x86_acpi_transition_s_state() *)
  (* the interrupt flag an opaque collaborator returns with, given the flag
     it was entered with *)
  ints_after : opaque -> bool -> bool
}.

(** ** The monad: machine state, call log, assertion failure *)

Inductive outcome (A : Type) : Type :=
| Done (a : A)
| Panic.
Arguments Done {A} a.
Arguments Panic {A}.

Definition M (A : Type) : Type := Machine -> outcome A * Machine * list Event.

Definition ret {A} (a : A) : M A := fun m => (Done a, m, []).

Definition bind {A B} (c : M A) (k : A -> M B) : M B :=
  fun m =>
    match c m with
    | (Done a, m1, t1) =>
        match k a m1 with
        | (r, m2, t2) => (r, m2, t1 ++ t2)
        end
    | (Panic, m1, t1) => (Panic, m1, t1)
    end.

Notation "x <- c ;; k" := (bind c (fun x => k))
  (at level 61, c at next level, right associativity).
Notation "' pat <- c ;; k" := (bind c (fun x => match x with pat => k end))
  (at level 61, pat pattern, c at next level, right associativity).
Notation "c ;; k" := (bind c (fun _ => k))
  (at level 61, right associativity).

Definition panic {A} : M A := fun m => (Panic, m, []).
Definition emit (e : Event) : M unit := fun m => (Done tt, m, [e]).
Definition get : M Machine := fun m => (Done m, m, []).
Definition modify (f : Machine -> Machine) : M unit := fun m => (Done tt, f m, []).

Definition result_of {A} (r : outcome A * Machine * list Event) : outcome A := fst (fst r).
Definition machine_of {A} (r : outcome A * Machine * list Event) : Machine := snd (fst r).
Definition calls_of {A} (r : outcome A * Machine * list Event) : list Event := snd r.

(** [ASSERT(cond)] and [DEBUG_ASSERT(cond)]: the kernel stops when the
    condition is false.  [DEBUG_ASSERT] is embedded as it behaves in a build
    that implements it. *)
Definition ASSERT (cond : bool) : M unit := if cond then ret tt else panic.
Definition DEBUG_ASSERT (cond : M bool) : M unit :=
  b <- cond ;; if b then ret tt else panic.

(** [fbl::MakeAutoCall(f)] : [f] runs when the enclosing scope is left, by
    whichever [return]; the value returned is the scope's. *)
Definition MakeAutoCall {A} (f : M unit) (scope : M A) : M A :=
  a <- scope ;; f ;; ret a.

(** ** The collaborators *)

(** Modelled from the spec: one of "the architecture-specific low-level
    routines that physically disable/enable interrupts" (arch/arch_ops.h, not
    part of the sources at hand). *)
Definition arch_disable_ints : M unit :=
  emit E_arch_disable_ints ;; modify (set_ints false).

(** Modelled from the spec: the routine that enables interrupts
    (arch/arch_ops.h, not part of the sources at hand). *)
Definition arch_enable_ints : M unit :=
  emit E_arch_enable_ints ;; modify (set_ints true).

(** Modelled from the spec: the query behind "assert interrupts are still
    disabled" (arch/arch_ops.h, not part of the sources at hand). *)
Definition arch_ints_disabled : M bool :=
  m <- get ;;
  emit (E_arch_ints_disabled (negb (ints_enabled m))) ;;
  ret (negb (ints_enabled m)).

(** Modelled from the spec: the "opaque save/resume/transition primitives".
    Nothing is known of their bodies; the platform says with which interrupt
    flag each returns. *)
Definition opaque_call (p : Platform) (o : opaque) (e : Event) : M unit :=
  emit e ;; modify (fun m => set_ints (ints_after p o (ints_enabled m)) m).

(** Modelled from the spec: the platform-level "save system state"
    primitive (platform.h, not part of the sources at hand). *)
Definition platform_suspend (p : Platform) : M unit :=
  opaque_call p op_platform_suspend E_platform_suspend.

(** Modelled from the spec: the architecture-level "save system state"
    primitive (arch/arch_ops.h, not part of the sources at hand). *)
Definition arch_suspend (p : Platform) : M unit :=
  opaque_call p op_arch_suspend E_arch_suspend.

(** Modelled from the spec: the architecture-level "resume" primitive
    (arch/arch_ops.h, not part of the sources at hand). *)
Definition arch_resume (p : Platform) : M unit :=
  opaque_call p op_arch_resume E_arch_resume.

(** Modelled from the spec: the "restore platform" primitive (platform.h, not
    part of the sources at hand). *)
Definition platform_resume (p : Platform) : M unit :=
  opaque_call p op_platform_resume E_platform_resume.

(** Modelled from the spec: the "restore timer" primitive (kernel/timer.h,
    not part of the sources at hand). *)
Definition timer_thaw_percpu (p : Platform) : M unit :=
  opaque_call p op_timer_thaw_percpu E_timer_thaw_percpu.

(** Modelled from the spec: "the hardware S-state transition primitive",
    called with [(regs, target_state, sleep_type_a, sleep_type_b)]; it
    returns the firmware status (arch/x86/acpi.h, not part of the sources at
    hand). *)
Definition x86_acpi_transition_s_state (p : Platform) (regs : regs_ptr)
    (target a b : Z) : M ACPI_STATUS :=
  opaque_call p op_x86_acpi_transition_s_state
    (E_x86_acpi_transition_s_state regs target a b (transition_status p)) ;;
  ret (transition_status p).

(** Modelled from the spec: [acquire_bootstrap(resume_entry) ->
    BootstrapResource | Error] (arch/x86/bootstrap16.h, not part of the
    sources at hand).  The resource is held from a successful acquire to the
    release. *)
Definition x86_bootstrap16_acquire (p : Platform) : M (zx_status_t * paddr_t) :=
  emit (E_x86_bootstrap16_acquire (acquire_status p) (acquire_ip p)) ;;
  (if acquire_status p =? ZX_OK then modify (set_bootstrap_held true) else ret tt) ;;
  ret (acquire_status p, acquire_ip p).

(** Modelled from the spec: [release_bootstrap(BootstrapResource)]
    (arch/x86/bootstrap16.h, not part of the sources at hand). *)
Definition x86_bootstrap16_release : M unit :=
  emit E_x86_bootstrap16_release ;; modify (set_bootstrap_held false).

(** Modelled from the spec: "firmware table lookup by signature" (ACPICA, not
    part of the sources at hand). *)
Definition AcpiGetTable (p : Platform) : M ACPI_STATUS :=
  emit (E_AcpiGetTable (get_table_status p)) ;; ret (get_table_status p).

(** Modelled from the spec: [set_wake_vector(table, address, flags) ->
    Status], and the same call with a zero address as [clear_wake_vector],
    "always callable ... as a no-op-safe reset" (ACPICA, not part of the
    sources at hand).  The field holds the address when the call succeeds and
    is left as it was when it fails. *)
Definition AcpiHwSetFirmwareWakingVector (p : Platform) (address : paddr_t)
    : M ACPI_STATUS :=
  let status := if address =? 0 then AE_OK else set_vector_status p in
  emit (E_AcpiHwSetFirmwareWakingVector address status) ;;
  (if status =? AE_OK then modify (set_waking_vector address) else ret tt) ;;
  ret status.

(** Modelled from the spec: the "multi-core status query returning the set
    of currently-running processing units" (arch/mp.h, not part of the
    sources at hand). *)
Definition mp_get_online_mask (p : Platform) : M cpu_mask_t :=
  emit (E_mp_get_online_mask (online_mask p)) ;; ret (online_mask p).

(** Modelled from the spec: the execution context of the "execution-context
    creation/start/join primitives" (kernel/thread.h, not part of the sources
    at hand).  A thread is its entry point. *)
Record thread_t := { entry : M zx_status_t }.

(** Modelled from the spec: execution-context creation, which may fail. *)
Definition thread_create (p : Platform) (name : string) (f : M zx_status_t)
    : M (option thread_t) :=
  emit (E_thread_create name (thread_created p)) ;;
  ret (if thread_created p then Some {| entry := f |} else None).

(** Modelled from the spec: the start of the execution context. *)
Definition thread_resume (p : Platform) (t : thread_t) : M zx_status_t :=
  emit (E_thread_resume (thread_resume_status p)) ;;
  ret (thread_resume_status p).

(** Modelled from the spec: the blocking join.  The thread has run to
    completion when the join returns, and "the thread's return value is the
    TransitionOutcome". *)
Definition thread_join (p : Platform) (t : thread_t) (deadline : Z)
    : M (zx_status_t * zx_status_t) :=
  retcode <- entry t ;;
  emit (E_thread_join deadline (thread_join_status p) retcode) ;;
  ret (thread_join_status p, retcode).

(** ** The two functions of the file *)

(** [suspend_thread], lines 34-101.  [TRACEF] prints nothing ([LOCAL_TRACE]
    is 0).  The two [MakeAutoCall] guards are destroyed in the reverse order
    of their construction when the function returns. *)
Definition suspend_thread (p : Platform) (arg : zx_system_powerctl_arg_t)
    : M zx_status_t :=
  let target_s_state := target_s_state arg in
  let sleep_type_a := sleep_type_a arg in
  let sleep_type_b := sleep_type_b arg in
  (* Acquire resources for suspend and resume if necessary. *)
  '(status, bootstrap_ip) <- x86_bootstrap16_acquire p ;;
  if status != ZX_OK then ret status else
  MakeAutoCall x86_bootstrap16_release (
    (* Setup our resume path *)
    acpi_status <- AcpiGetTable p ;;
    if acpi_status != AE_OK then ret ZX_ERR_BAD_STATE else
    acpi_status <- AcpiHwSetFirmwareWakingVector p bootstrap_ip ;;
    if acpi_status != AE_OK then ret ZX_ERR_BAD_STATE else
    MakeAutoCall (AcpiHwSetFirmwareWakingVector p 0 ;; ret tt) (
      modify (set_registers_ptr (address_of suspend_thread_regs)) ;;
      arch_disable_ints ;;
      (* Save system state. *)
      platform_suspend p ;;
      arch_suspend p ;;
      (* Do the actual suspend *)
      acpi_status <- x86_acpi_transition_s_state p
                       (address_of suspend_thread_regs)
                       target_s_state sleep_type_a sleep_type_b ;;
      if acpi_status != AE_OK then
        arch_enable_ints ;;
        ret ZX_ERR_INTERNAL
      else
      (* If we're here, we've resumed and need to restore our CPU context *)
      DEBUG_ASSERT arch_ints_disabled ;;
      arch_resume p ;;
      platform_resume p ;;
      timer_thaw_percpu p ;;
      DEBUG_ASSERT arch_ints_disabled ;;
      arch_enable_ints ;;
      ret ZX_OK)).

(** [arch_system_powerctl], lines 105-162.  The [&&] of line 119 does not
    query the online mask when the target is 5. *)
Definition arch_system_powerctl (p : Platform) (cmd : Z)
    (arg : zx_system_powerctl_arg_t) : M zx_status_t :=
  if cmd != ZX_SYSTEM_POWERCTL_ACPI_TRANSITION_S_STATE then
    ret ZX_ERR_NOT_SUPPORTED
  else
  let target_s_state := target_s_state arg in
  let sleep_type_a := sleep_type_a arg in
  let sleep_type_b := sleep_type_b arg in
  if (target_s_state =? 0) || (target_s_state >? 5) then
    ret ZX_ERR_INVALID_ARGS
  else
  (* If not a shutdown, ensure CPU 0 is the only cpu left running. *)
  not_quiescent <-
    (if target_s_state != 5 then
       mask <- mp_get_online_mask p ;; ret (mask != cpu_num_to_mask 0)
     else ret false) ;;
  if (not_quiescent : bool) then ret ZX_ERR_BAD_STATE else
  if target_s_state <? 5 then
    t <- thread_create p "suspend-thread" (suspend_thread p arg) ;;
    match t with
    | None => ret ZX_ERR_NO_MEMORY
    | Some t =>
        status <- thread_resume p t ;;
        ASSERT (status =? ZX_OK) ;;
        '(status, retcode) <- thread_join p t ZX_TIME_INFINITE ;;
        ASSERT (status =? ZX_OK) ;;
        if retcode != ZX_OK then ret retcode else ret ZX_OK
    end
  else
    DEBUG_ASSERT (ret (target_s_state =? 5)) ;;
    arch_disable_ints ;;
    acpi_status <- x86_acpi_transition_s_state p
                     (address_of arch_system_powerctl_regs)
                     target_s_state sleep_type_a sleep_type_b ;;
    arch_enable_ints ;;
    if acpi_status != AE_OK then ret ZX_ERR_INTERNAL else ret ZX_OK.

(** ** The exits of [suspend_thread], tabulated *)

(** The status with which the waking vector is armed (line 64). *)
Definition arming_status (p : Platform) : ACPI_STATUS :=
  if acquire_ip p =? 0 then AE_OK else set_vector_status p.

(** The interrupt flag when the transition primitive has returned (line 92),
    and when the restore primitives have (line 98). *)
Definition ints_at_resume (p : Platform) : bool :=
  ints_after p op_x86_acpi_transition_s_state
    (ints_after p op_arch_suspend (ints_after p op_platform_suspend false)).

Definition ints_at_restored (p : Platform) : bool :=
  ints_after p op_timer_thaw_percpu
    (ints_after p op_platform_resume (ints_after p op_arch_resume false)).

Inductive exit : Type :=
| AcquireFailed        (* line 51 *)
| TableMissing         (* line 62 *)
| ArmFailed            (* line 66 *)
| Rejected             (* line 87 *)
| ResumeAssertFailed   (* line 92 *)
| RestoreAssertFailed  (* line 98 *)
| Resumed.             (* line 100 *)

Definition exit_of (p : Platform) : exit :=
  if acquire_status p != ZX_OK then AcquireFailed
  else if get_table_status p != AE_OK then TableMissing
  else if arming_status p != AE_OK then ArmFailed
  else if transition_status p != AE_OK then Rejected
  else if ints_at_resume p then ResumeAssertFailed
  else if ints_at_restored p then RestoreAssertFailed
  else Resumed.

Definition acquire_calls (p : Platform) : list Event :=
  [E_x86_bootstrap16_acquire (acquire_status p) (acquire_ip p)].

Definition arm_calls (p : Platform) : list Event :=
  [E_AcpiGetTable AE_OK;
   E_AcpiHwSetFirmwareWakingVector (acquire_ip p) AE_OK].

Definition suspend_calls (p : Platform) (arg : zx_system_powerctl_arg_t) : list Event :=
  [E_arch_disable_ints; E_platform_suspend; E_arch_suspend;
   E_x86_acpi_transition_s_state (address_of suspend_thread_regs)
     (target_s_state arg) (sleep_type_a arg) (sleep_type_b arg)
     (transition_status p)].

Definition restore_calls : list Event :=
  [E_arch_ints_disabled true; E_arch_resume; E_platform_resume;
   E_timer_thaw_percpu; E_arch_ints_disabled true; E_arch_enable_ints].

Definition clear_call : Event := E_AcpiHwSetFirmwareWakingVector 0 AE_OK.

(** The calls made on each exit, in order. *)
Definition calls_on (p : Platform) (arg : zx_system_powerctl_arg_t) (x : exit)
    : list Event :=
  match x with
  | AcquireFailed => acquire_calls p
  | TableMissing =>
      acquire_calls p ++ [E_AcpiGetTable (get_table_status p)]
        ++ [E_x86_bootstrap16_release]
  | ArmFailed =>
      acquire_calls p
        ++ [E_AcpiGetTable AE_OK;
            E_AcpiHwSetFirmwareWakingVector (acquire_ip p) (arming_status p)]
        ++ [E_x86_bootstrap16_release]
  | Rejected =>
      acquire_calls p ++ arm_calls p ++ suspend_calls p arg
        ++ [E_arch_enable_ints]
        ++ [clear_call; E_x86_bootstrap16_release]
  | ResumeAssertFailed =>
      acquire_calls p ++ arm_calls p ++ suspend_calls p arg
        ++ [E_arch_ints_disabled false]
  | RestoreAssertFailed =>
      acquire_calls p ++ arm_calls p ++ suspend_calls p arg
        ++ [E_arch_ints_disabled true; E_arch_resume; E_platform_resume;
            E_timer_thaw_percpu; E_arch_ints_disabled false]
  | Resumed =>
      acquire_calls p ++ arm_calls p ++ suspend_calls p arg
        ++ restore_calls
        ++ [clear_call; E_x86_bootstrap16_release]
  end.

Definition result_on (p : Platform) (x : exit) : outcome zx_status_t :=
  match x with
  | AcquireFailed => Done (acquire_status p)
  | TableMissing | ArmFailed => Done ZX_ERR_BAD_STATE
  | Rejected => Done ZX_ERR_INTERNAL
  | ResumeAssertFailed | RestoreAssertFailed => Panic
  | Resumed => Done ZX_OK
  end.

Definition unwound (m : Machine) : Machine :=
  {| ints_enabled := true; waking_vector := 0; bootstrap_held := false;
     registers_ptr := address_of suspend_thread_regs |}.

Definition machine_on (p : Platform) (m : Machine) (x : exit) : Machine :=
  match x with
  | AcquireFailed => m
  | TableMissing | ArmFailed => set_bootstrap_held false m
  | Rejected | Resumed => unwound m
  | ResumeAssertFailed =>
      {| ints_enabled := true; waking_vector := acquire_ip p;
         bootstrap_held := true;
         registers_ptr := address_of suspend_thread_regs |}
  | RestoreAssertFailed =>
      {| ints_enabled := true; waking_vector := acquire_ip p;
         bootstrap_held := true;
         registers_ptr := address_of suspend_thread_regs |}
  end.

(** ** The calls of [arch_system_powerctl] around the thread *)

(** The calls around the thread's own, when the thread is created, started
    and joined. *)
Definition spawn_calls : list Event :=
  [E_mp_get_online_mask (cpu_num_to_mask 0);
   E_thread_create "suspend-thread" true;
   E_thread_resume ZX_OK].

Definition join_call (retcode : zx_status_t) : Event :=
  E_thread_join ZX_TIME_INFINITE ZX_OK retcode.

(** ** Reading a call log *)

Definition is_acquire (e : Event) : bool :=
  match e with E_x86_bootstrap16_acquire _ _ => true | _ => false end.

Definition is_release (e : Event) : bool :=
  match e with E_x86_bootstrap16_release => true | _ => false end.

(** The waking vector is set by a call with a non-zero address and cleared by
    a call with address 0 (lines 64 and 69). *)
Definition is_set_vector (e : Event) : bool :=
  match e with E_AcpiHwSetFirmwareWakingVector a _ => a != 0 | _ => false end.

Definition is_clear_vector (e : Event) : bool :=
  match e with E_AcpiHwSetFirmwareWakingVector a _ => a =? 0 | _ => false end.

Definition is_enable_ints (e : Event) : bool :=
  match e with E_arch_enable_ints => true | _ => false end.

Definition is_thread_create (e : Event) : bool :=
  match e with E_thread_create _ _ => true | _ => false end.

Definition is_mask_query (e : Event) : bool :=
  match e with E_mp_get_online_mask _ => true | _ => false end.

(** The calls that take a resource: the bootstrap acquisition, the arming of
    the waking vector, the creation of a thread. *)
Definition takes_resource (e : Event) : bool :=
  is_acquire e || is_set_vector e || is_thread_create e.

Definition count (f : Event -> bool) (l : list Event) : nat :=
  List.length (filter f l).

(** [in_order s l]: the calls of [s] occur in [l], in the order of [s]. *)
Inductive in_order : list Event -> list Event -> Prop :=
| in_order_nil l : in_order [] l
| in_order_here e s l : in_order s l -> in_order (e :: s) (e :: l)
| in_order_later e s l : in_order s l -> in_order s (e :: l).

(** ** Platforms and requests used as examples *)

Definition booted : Machine :=
  {| ints_enabled := true; waking_vector := 0; bootstrap_held := false;
     registers_ptr := nullptr |}.

Definition mock (mask : cpu_mask_t) (created : bool)
    (acquire : zx_status_t) (table arm transition : ACPI_STATUS) : Platform :=
  {| online_mask := mask; thread_created := created;
     thread_resume_status := ZX_OK; thread_join_status := ZX_OK;
     acquire_status := acquire; acquire_ip := 32768;
     get_table_status := table; set_vector_status := arm;
     transition_status := transition;
     ints_after := fun _ b => b |}.

Definition request (target a b : Z) : zx_system_powerctl_arg_t :=
  {| target_s_state := target; sleep_type_a := a; sleep_type_b := b |}.

(** ACPICA's [AE_ERROR]. *)
Definition AE_ERROR : ACPI_STATUS := 1.

Definition all_succeed : Platform := mock 1 true ZX_OK AE_OK AE_OK AE_OK.
Definition table_missing : Platform := mock 1 true ZX_OK AE_ERROR AE_OK AE_OK.
Definition arm_fails : Platform := mock 1 true ZX_OK AE_OK AE_ERROR AE_OK.
Definition firmware_rejects : Platform := mock 1 true ZX_OK AE_OK AE_OK AE_ERROR.
Definition two_units : Platform := mock 3 true ZX_OK AE_OK AE_OK AE_OK.
Definition unit_1_alone : Platform := mock 2 true ZX_OK AE_OK AE_OK AE_OK.
Definition no_thread : Platform := mock 1 false ZX_OK AE_OK AE_OK AE_OK.

Definition with_online_mask (mask : cpu_mask_t) (p : Platform) : Platform :=
  {| online_mask := mask; thread_created := thread_created p;
     thread_resume_status := thread_resume_status p;
     thread_join_status := thread_join_status p;
     acquire_status := acquire_status p; acquire_ip := acquire_ip p;
     get_table_status := get_table_status p;
     set_vector_status := set_vector_status p;
     transition_status := transition_status p;
     ints_after := ints_after p |}.

(** ** Two statements of the specification, as worded *)

(** The unwind as the specification words it: whatever the exit, the attempt
    ends with the waking vector cleared and the bootstrap resource released,
    after as many clear calls as set calls and as many releases as
    acquisitions. *)
Definition unwind_as_claimed (p : Platform) (arg : zx_system_powerctl_arg_t)
    (m : Machine) : Prop :=
  let attempt := suspend_thread p arg m in
  waking_vector (machine_of attempt) = 0
  /\ bootstrap_held (machine_of attempt) = false
  /\ count is_set_vector (calls_of attempt) = count is_clear_vector (calls_of attempt)
  /\ count is_acquire (calls_of attempt) = count is_release (calls_of attempt).

(** The shutdown path as the specification words it: the primitive is given
    a null register-capture context, interrupts are re-enabled only if the
    firmware call failed, and every return from the call -- a successful one
    included -- is reported as internal-error. *)
Definition shutdown_as_claimed (p : Platform) (arg : zx_system_powerctl_arg_t)
    (m : Machine) : Prop :=
  let run := arch_system_powerctl p ZX_SYSTEM_POWERCTL_ACPI_TRANSITION_S_STATE arg m in
  In (E_x86_acpi_transition_s_state nullptr 5 (sleep_type_a arg) (sleep_type_b arg)
        (transition_status p))
     (calls_of run)
  /\ (In E_arch_enable_ints (calls_of run) -> transition_status p <> AE_OK)
  /\ (transition_status p = AE_OK -> result_of run = Done ZX_ERR_INTERNAL).

Arguments suspend_thread : simpl never.
Arguments cpu_num_to_mask : simpl never.

(** ** The exits of [arch_system_powerctl], tabulated *)

Inductive entry_exit : Type :=
| Unsupported      (* line 107 *)
| InvalidTarget    (* line 115 *)
| NotQuiescent     (* line 121 *)
| NoThread         (* line 134 *)
| ResumeAsserted   (* line 138 *)
| Threaded         (* lines 140-146 *)
| Shutdown.        (* lines 148-158 *)

Definition entry_exit_of (p : Platform) (cmd : Z) (arg : zx_system_powerctl_arg_t)
    : entry_exit :=
  if cmd != ZX_SYSTEM_POWERCTL_ACPI_TRANSITION_S_STATE then Unsupported
  else if (target_s_state arg =? 0) || (target_s_state arg >? 5) then InvalidTarget
  else if (target_s_state arg != 5) && (online_mask p != cpu_num_to_mask 0)
  then NotQuiescent
  else if target_s_state arg <? 5 then
    if thread_created p then
      if thread_resume_status p =? ZX_OK then Threaded else ResumeAsserted
    else NoThread
  else Shutdown.

(** What the join of line 141 and the assertion of line 142 make of the run
    of the thread. *)
Definition join_run (p : Platform)
    (attempt : outcome zx_status_t * Machine * list Event)
    : outcome zx_status_t * Machine * list Event :=
  match attempt with
  | (Done retcode, m1, t1) =>
      (if thread_join_status p =? ZX_OK then Done retcode else Panic,
       m1,
       t1 ++ [E_thread_join ZX_TIME_INFINITE (thread_join_status p) retcode])
  | (Panic, m1, t1) => (Panic, m1, t1)
  end.

(** The run of the entry point on each exit. *)
Definition entry_run (p : Platform) (arg : zx_system_powerctl_arg_t) (m : Machine)
    (x : entry_exit) : outcome zx_status_t * Machine * list Event :=
  match x with
  | Unsupported => (Done ZX_ERR_NOT_SUPPORTED, m, [])
  | InvalidTarget => (Done ZX_ERR_INVALID_ARGS, m, [])
  | NotQuiescent =>
      (Done ZX_ERR_BAD_STATE, m, [E_mp_get_online_mask (online_mask p)])
  | NoThread =>
      (Done ZX_ERR_NO_MEMORY, m,
       [E_mp_get_online_mask (online_mask p);
        E_thread_create "suspend-thread" false])
  | ResumeAsserted =>
      (Panic, m,
       [E_mp_get_online_mask (online_mask p);
        E_thread_create "suspend-thread" true;
        E_thread_resume (thread_resume_status p)])
  | Threaded =>
      (result_of (join_run p (suspend_thread p arg m)),
       machine_of (join_run p (suspend_thread p arg m)),
       [E_mp_get_online_mask (online_mask p);
        E_thread_create "suspend-thread" true;
        E_thread_resume (thread_resume_status p)]
       ++ calls_of (join_run p (suspend_thread p arg m)))
  | Shutdown =>
      (Done (if transition_status p != AE_OK then ZX_ERR_INTERNAL else ZX_OK),
       set_ints true m,
       [E_arch_disable_ints;
        E_x86_acpi_transition_s_state (address_of arch_system_powerctl_regs)
          (target_s_state arg) (sleep_type_a arg) (sleep_type_b arg)
          (transition_status p);
        E_arch_enable_ints])
  end.

(** ** More ways to read a call log *)

Definition is_transition (e : Event) : bool :=
  match e with E_x86_acpi_transition_s_state _ _ _ _ _ => true | _ => false end.

Definition is_disable_ints (e : Event) : bool :=
  match e with E_arch_disable_ints => true | _ => false end.

(** A bootstrap acquisition that succeeded. *)
Definition is_acquired (e : Event) : bool :=
  match e with E_x86_bootstrap16_acquire status _ => status =? ZX_OK | _ => false end.

(** The calls that must not happen before the resume path is armed: the
    interrupt primitives and the opaque save, transition and restore
    primitives. *)
Definition is_suspend_work (e : Event) : bool :=
  match e with
  | E_arch_disable_ints | E_arch_enable_ints | E_arch_ints_disabled _
  | E_platform_suspend | E_arch_suspend | E_x86_acpi_transition_s_state _ _ _ _ _
  | E_arch_resume | E_platform_resume | E_timer_thaw_percpu => true
  | _ => false
  end.

(** The restore primitives of lines 94-96. *)
Definition is_restore (e : Event) : bool :=
  match e with
  | E_arch_resume | E_platform_resume | E_timer_thaw_percpu => true
  | _ => false
  end.




(** A platform whose [arch_resume] returns with interrupts enabled and whose
    [platform_resume] returns with interrupts disabled. *)
Definition resume_enables : Platform :=
  {| online_mask := 1; thread_created := true;
     thread_resume_status := ZX_OK; thread_join_status := ZX_OK;
     acquire_status := ZX_OK; acquire_ip := 32768;
     get_table_status := AE_OK; set_vector_status := AE_OK;
     transition_status := AE_OK;
     ints_after := fun o b =>
       match o with
       | op_arch_resume => true
       | op_platform_resume => false
       | _ => b
       end |}.

(** A platform whose [timer_thaw_percpu] returns with interrupts enabled. *)
Definition restore_enables : Platform :=
  {| online_mask := 1; thread_created := true;
     thread_resume_status := ZX_OK; thread_join_status := ZX_OK;
     acquire_status := ZX_OK; acquire_ip := 32768;
     get_table_status := AE_OK; set_vector_status := AE_OK;
     transition_status := AE_OK;
     ints_after := fun o b =>
       match o with op_timer_thaw_percpu => true | _ => b end |}.

(** The restore phase as the specification words it: on the successful exit
    interrupts are enabled exactly once, by [suspend_thread], and never by a
    restore primitive -- each of [arch_resume], [platform_resume] and
    [timer_thaw_percpu] returns with the interrupt flag still off. *)
Definition restore_as_claimed (p : Platform) (arg : zx_system_powerctl_arg_t)
    (m : Machine) : Prop :=
  result_of (suspend_thread p arg m) = Done ZX_OK ->
  ints_after p op_arch_resume false = false
  /\ ints_after p op_platform_resume (ints_after p op_arch_resume false) = false
  /\ ints_after p op_timer_thaw_percpu
       (ints_after p op_platform_resume (ints_after p op_arch_resume false))
     = false
  /\ count is_enable_ints (calls_of (suspend_thread p arg m)) = 1%nat.

(** The calls that take, look up or give back a resource, or handle the
    thread: all but the mask query, the interrupt primitives and the opaque
    primitives. *)
Definition is_resource_call (e : Event) : bool :=
  match e with
  | E_thread_create _ _ | E_thread_resume _ | E_thread_join _ _ _
  | E_x86_bootstrap16_acquire _ _ | E_x86_bootstrap16_release
  | E_AcpiGetTable _ | E_AcpiHwSetFirmwareWakingVector _ _ => true
  | _ => false
  end.

(** [outside_window masked l]: no resource call of [l] is made between an
    [arch_disable_ints] and the next [arch_enable_ints]; [masked] says
    whether the log starts inside such a window. *)
Fixpoint outside_window (masked : bool) (l : list Event) : bool :=
  match l with
  | [] => true
  | E_arch_disable_ints :: l' => outside_window true l'
  | E_arch_enable_ints :: l' => outside_window false l'
  | e :: l' =>
      (negb masked || negb (is_resource_call e)) && outside_window masked l'
  end.

(** ** Tactics *)

Ltac unfold_calls :=
  unfold MakeAutoCall, DEBUG_ASSERT, ASSERT,
    x86_bootstrap16_acquire, x86_bootstrap16_release, AcpiGetTable,
    AcpiHwSetFirmwareWakingVector, arch_disable_ints, arch_enable_ints,
    arch_ints_disabled, platform_suspend, arch_suspend, arch_resume,
    platform_resume, timer_thaw_percpu, x86_acpi_transition_s_state,
    opaque_call, mp_get_online_mask, thread_create, thread_resume,
    thread_join, bind, ret, emit, modify, get, panic.

(** Case split on a status test [x =? 0] of the code. *)
Ltac split_status x :=
  let E := fresh "E" in
  destruct (x =? 0) eqn:E;
  [apply Z.eqb_eq in E; subst x | ];
  cbn; rewrite ?E; cbn.

Ltac in_order :=
  repeat first [apply in_order_nil | apply in_order_here | apply in_order_later].

(** * Properties *)

(** ** [suspend_thread] takes the tabulated exit *)

Lemma suspend_thread_exit (p : Platform) (arg : zx_system_powerctl_arg_t) (m : Machine) :
  suspend_thread p arg m
  = (result_on p (exit_of p), machine_on p m (exit_of p), calls_on p arg (exit_of p)).
Proof.
  unfold suspend_thread, exit_of, arming_status, ints_at_resume, ints_at_restored.
  unfold_calls.
  destruct p as [mask tc trs tjs acq ip gts svs ts ia]; destruct m as [ie wv bh rp].
  unfold ZX_OK, AE_OK; cbn.
  split_status acq; [|reflexivity].
  split_status gts; [|reflexivity].
  split_status ip.
  - split_status ts; [|reflexivity].
    destruct (ia op_x86_acpi_transition_s_state _); cbn; [reflexivity|].
    destruct (ia op_timer_thaw_percpu _); reflexivity.
  - split_status svs; [|unfold arming_status; cbn; rewrite E; reflexivity].
    split_status ts; [|reflexivity].
    destruct (ia op_x86_acpi_transition_s_state _); cbn; [reflexivity|].
    destruct (ia op_timer_thaw_percpu _); reflexivity.
Qed.

(** ** The exits of [arch_system_powerctl] *)

Section EntryPoint.

Variable p : Platform.
Variable arg : zx_system_powerctl_arg_t.
Variable m : Machine.

Let CMD := ZX_SYSTEM_POWERCTL_ACPI_TRANSITION_S_STATE.

Lemma powerctl_unsupported (cmd : Z) :
  cmd <> CMD ->
  arch_system_powerctl p cmd arg m = (Done ZX_ERR_NOT_SUPPORTED, m, []).
Proof.
  intros Hcmd. unfold arch_system_powerctl.
  apply Z.eqb_neq in Hcmd. fold CMD. rewrite Hcmd. reflexivity.
Qed.

Lemma powerctl_invalid :
  target_s_state arg = 0 \/ target_s_state arg > 5 ->
  arch_system_powerctl p CMD arg m = (Done ZX_ERR_INVALID_ARGS, m, []).
Proof.
  intros Ht. unfold arch_system_powerctl.
  rewrite Z.eqb_refl. cbn [negb].
  assert (E : (target_s_state arg =? 0) || (target_s_state arg >? 5) = true).
  { apply orb_true_iff. destruct Ht as [Ht|Ht].
    - left. now apply Z.eqb_eq.
    - right. now apply Z.gtb_lt, Z.gt_lt. }
  rewrite E. reflexivity.
Qed.

Lemma valid_target_tests (t : Z) :
  1 <= t <= 5 -> (t =? 0) || (t >? 5) = false.
Proof.
  intros Ht. apply orb_false_iff. split.
  - apply Z.eqb_neq. lia.
  - rewrite Z.gtb_ltb. apply Z.ltb_ge. lia.
Qed.

Lemma powerctl_not_quiescent :
  1 <= target_s_state arg <= 4 ->
  online_mask p <> cpu_num_to_mask 0 ->
  arch_system_powerctl p CMD arg m
  = (Done ZX_ERR_BAD_STATE, m, [E_mp_get_online_mask (online_mask p)]).
Proof.
  intros Ht Hmask. unfold arch_system_powerctl.
  rewrite Z.eqb_refl. cbn [negb].
  rewrite valid_target_tests by lia.
  assert (E5 : (target_s_state arg =? 5) = false) by (apply Z.eqb_neq; lia).
  apply Z.eqb_neq in Hmask.
  unfold_calls. rewrite E5. cbn. rewrite Hmask. reflexivity.
Qed.

Lemma powerctl_no_thread :
  1 <= target_s_state arg <= 4 ->
  online_mask p = cpu_num_to_mask 0 ->
  thread_created p = false ->
  arch_system_powerctl p CMD arg m
  = (Done ZX_ERR_NO_MEMORY, m,
     [E_mp_get_online_mask (online_mask p);
      E_thread_create "suspend-thread" false]).
Proof.
  intros Ht Hmask Hcreate. unfold arch_system_powerctl.
  rewrite Z.eqb_refl. cbn [negb].
  rewrite valid_target_tests by lia.
  assert (E5 : (target_s_state arg =? 5) = false) by (apply Z.eqb_neq; lia).
  assert (L5 : (target_s_state arg <? 5) = true) by (apply Z.ltb_lt; lia).
  unfold_calls. rewrite E5, L5, Hcreate, Hmask, Z.eqb_refl. reflexivity.
Qed.

Lemma powerctl_joined (retcode : zx_status_t) :
  1 <= target_s_state arg <= 4 ->
  online_mask p = cpu_num_to_mask 0 ->
  thread_created p = true ->
  thread_resume_status p = ZX_OK ->
  thread_join_status p = ZX_OK ->
  result_of (suspend_thread p arg m) = Done retcode ->
  arch_system_powerctl p CMD arg m
  = (Done retcode, machine_of (suspend_thread p arg m),
     spawn_calls ++ calls_of (suspend_thread p arg m) ++ [join_call retcode]).
Proof.
  intros Ht Hmask Hcreate Hresume Hjoin Hrun. unfold arch_system_powerctl.
  rewrite Z.eqb_refl. cbn [negb].
  rewrite valid_target_tests by lia.
  assert (E5 : (target_s_state arg =? 5) = false) by (apply Z.eqb_neq; lia).
  assert (L5 : (target_s_state arg <? 5) = true) by (apply Z.ltb_lt; lia).
  unfold_calls. rewrite E5, L5, Hcreate, Hmask, Hresume, Hjoin, Z.eqb_refl. cbn.
  unfold result_of in Hrun. unfold machine_of, calls_of, join_call.
  destruct (suspend_thread p arg m) as [[r m1] t1].
  cbn in Hrun. subst r. cbn.
  destruct (retcode =? ZX_OK) eqn:E; cbn.
  - apply Z.eqb_eq in E. subst retcode. now rewrite app_nil_r.
  - now rewrite app_nil_r.
Qed.

Lemma powerctl_shutdown :
  target_s_state arg = 5 ->
  arch_system_powerctl p CMD arg m
  = (Done (if transition_status p != AE_OK then ZX_ERR_INTERNAL else ZX_OK),
     set_ints true m,
     [E_arch_disable_ints;
      E_x86_acpi_transition_s_state (address_of arch_system_powerctl_regs)
        5 (sleep_type_a arg) (sleep_type_b arg) (transition_status p);
      E_arch_enable_ints]).
Proof.
  intros Ht. unfold arch_system_powerctl.
  rewrite Z.eqb_refl. cbn [negb]. rewrite Ht.
  unfold_calls. cbn.
  destruct (transition_status p =? AE_OK); reflexivity.
Qed.

End EntryPoint.

Lemma exit_of_cases (p : Platform) :
  match exit_of p with
  | AcquireFailed => acquire_status p <> ZX_OK
  | TableMissing => acquire_status p = ZX_OK /\ get_table_status p <> AE_OK
  | ArmFailed =>
      acquire_status p = ZX_OK /\ get_table_status p = AE_OK
      /\ arming_status p <> AE_OK
  | Rejected =>
      acquire_status p = ZX_OK /\ get_table_status p = AE_OK
      /\ arming_status p = AE_OK /\ transition_status p <> AE_OK
  | ResumeAssertFailed =>
      acquire_status p = ZX_OK /\ get_table_status p = AE_OK
      /\ arming_status p = AE_OK /\ transition_status p = AE_OK
      /\ ints_at_resume p = true
  | RestoreAssertFailed =>
      acquire_status p = ZX_OK /\ get_table_status p = AE_OK
      /\ arming_status p = AE_OK /\ transition_status p = AE_OK
      /\ ints_at_resume p = false /\ ints_at_restored p = true
  | Resumed =>
      acquire_status p = ZX_OK /\ get_table_status p = AE_OK
      /\ arming_status p = AE_OK /\ transition_status p = AE_OK
      /\ ints_at_resume p = false /\ ints_at_restored p = false
  end.
Proof.
  unfold exit_of.
  destruct (Z.eqb_spec (acquire_status p) ZX_OK) as [Ha|Ha]; cbn [negb]; [|exact Ha].
  destruct (Z.eqb_spec (get_table_status p) AE_OK) as [Hg|Hg]; cbn [negb]; [|now split].
  destruct (Z.eqb_spec (arming_status p) AE_OK) as [Hs|Hs]; cbn [negb]; [|now repeat split].
  destruct (Z.eqb_spec (transition_status p) AE_OK) as [Ht|Ht]; cbn [negb];
    [|now repeat split].
  destruct (ints_at_resume p) eqn:E1; [now repeat split|].
  destruct (ints_at_restored p) eqn:E2; now repeat split.
Qed.

Lemma exit_table_missing (p : Platform) :
  acquire_status p = ZX_OK -> get_table_status p <> AE_OK ->
  exit_of p = TableMissing.
Proof.
  intros Ha Hg. unfold exit_of. rewrite Ha. apply Z.eqb_neq in Hg. now rewrite Hg.
Qed.

Lemma exit_arm_failed (p : Platform) :
  acquire_status p = ZX_OK -> get_table_status p = AE_OK ->
  arming_status p <> AE_OK ->
  exit_of p = ArmFailed.
Proof.
  intros Ha Hg Hs. unfold exit_of. rewrite Ha, Hg. apply Z.eqb_neq in Hs. now rewrite Hs.
Qed.

Lemma exit_rejected (p : Platform) :
  acquire_status p = ZX_OK -> get_table_status p = AE_OK ->
  arming_status p = AE_OK -> transition_status p <> AE_OK ->
  exit_of p = Rejected.
Proof.
  intros Ha Hg Hs Ht. unfold exit_of. rewrite Ha, Hg, Hs.
  apply Z.eqb_neq in Ht. now rewrite Ht.
Qed.

Lemma exit_resumed (p : Platform) :
  acquire_status p = ZX_OK -> get_table_status p = AE_OK ->
  arming_status p = AE_OK -> transition_status p = AE_OK ->
  ints_at_resume p = false -> ints_at_restored p = false ->
  exit_of p = Resumed.
Proof.
  intros Ha Hg Hs Ht H1 H2. unfold exit_of. now rewrite Ha, Hg, Hs, Ht, H1, H2.
Qed.

(** A successful return is the exit of line 100. *)
Lemma returns_ok_resumed (p : Platform) (arg : zx_system_powerctl_arg_t) (m : Machine) :
  result_of (suspend_thread p arg m) = Done ZX_OK -> exit_of p = Resumed.
Proof.
  rewrite suspend_thread_exit. unfold result_of. cbn [fst].
  pose proof (exit_of_cases p) as H.
  destruct (exit_of p); cbn; intros E; try discriminate E; try reflexivity.
  injection E as E. contradiction.
Qed.

(** When the opaque collaborators return with the interrupt flag they were
    entered with, no assertion of [suspend_thread] fails. *)
Lemma suspend_thread_returns (p : Platform) (arg : zx_system_powerctl_arg_t) (m : Machine) :
  (forall o b, ints_after p o b = b) ->
  exists r, result_of (suspend_thread p arg m) = Done r.
Proof.
  intros Hints. rewrite suspend_thread_exit. unfold result_of. cbn [fst].
  pose proof (exit_of_cases p) as H.
  unfold ints_at_resume, ints_at_restored in H. rewrite !Hints in H.
  destruct (exit_of p); cbn; eauto; intuition discriminate.
Qed.

(** With collaborators that all succeed and opaque ones that leave the
    interrupt flag alone, the attempt returns [ZX_OK]. *)
Lemma resumes_when_all_succeed (p : Platform) (arg : zx_system_powerctl_arg_t)
    (m : Machine) :
  acquire_status p = ZX_OK -> get_table_status p = AE_OK ->
  arming_status p = AE_OK -> transition_status p = AE_OK ->
  (forall o b, ints_after p o b = b) ->
  result_of (suspend_thread p arg m) = Done ZX_OK.
Proof.
  intros Ha Hg Hs Ht Hints.
  rewrite suspend_thread_exit, (exit_resumed p Ha Hg Hs Ht).
  - reflexivity.
  - unfold ints_at_resume. now rewrite !Hints.
  - unfold ints_at_restored. now rewrite !Hints.
Qed.

Lemma arming_status_nonzero (p : Platform) :
  acquire_ip p <> 0 -> arming_status p = set_vector_status p.
Proof.
  intros Hip. unfold arming_status. apply Z.eqb_neq in Hip. now rewrite Hip.
Qed.

(** ** The entry point's validation *)

Lemma several_units_not_unit_0 (mask : cpu_mask_t) :
  (1 < online_count mask)%nat -> mask <> cpu_num_to_mask 0.
Proof.
  intros H E. rewrite E in H. vm_compute in H. lia.
Qed.

Lemma unit_0_offline_not_unit_0 (mask : cpu_mask_t) :
  Z.testbit mask 0 = false -> mask <> cpu_num_to_mask 0.
Proof.
  intros H E. rewrite E in H. vm_compute in H. discriminate H.
Qed.

(** C4: with the recognized command and a target state outside [1,5] (0, or
    more than 5), the entry point returns invalid-arguments and has called no
    collaborator at all -- no bootstrap acquisition, no arming of the waking
    vector, no thread creation -- whatever the platform, hence however many
    units are online. *)
Theorem invalid_target_rejected (p : Platform) (arg : zx_system_powerctl_arg_t)
    (m : Machine) :
  uint8 (target_s_state arg) ->
  ~ (1 <= target_s_state arg <= 5) ->
  let run := arch_system_powerctl p ZX_SYSTEM_POWERCTL_ACPI_TRANSITION_S_STATE arg m in
  result_of run = Done ZX_ERR_INVALID_ARGS
  /\ calls_of run = []
  /\ count takes_resource (calls_of run) = 0%nat
  /\ machine_of run = m.
Proof.
  intros Hu Ht run. subst run. unfold uint8 in Hu.
  rewrite powerctl_invalid by lia.
  repeat split.
Qed.

Lemma invalid_target_rejected_witness :
  result_of (arch_system_powerctl two_units
               ZX_SYSTEM_POWERCTL_ACPI_TRANSITION_S_STATE (request 6 0 0) booted)
  = Done ZX_ERR_INVALID_ARGS.
Proof.
  apply (invalid_target_rejected two_units (request 6 0 0) booted).
  - unfold uint8. simpl. lia.
  - simpl. lia.
Defined.

(** C5: with the recognized command and a target state in [1,4], when more
    than one unit is online the entry point returns bad-state; the only
    collaborator called is the online-mask query, so no thread was created
    and no resource was taken. *)
Theorem several_units_rejected (p : Platform) (arg : zx_system_powerctl_arg_t)
    (m : Machine) :
  1 <= target_s_state arg <= 4 ->
  (1 < online_count (online_mask p))%nat ->
  let run := arch_system_powerctl p ZX_SYSTEM_POWERCTL_ACPI_TRANSITION_S_STATE arg m in
  result_of run = Done ZX_ERR_BAD_STATE
  /\ calls_of run = [E_mp_get_online_mask (online_mask p)]
  /\ count is_thread_create (calls_of run) = 0%nat
  /\ count takes_resource (calls_of run) = 0%nat
  /\ machine_of run = m.
Proof.
  intros Ht Hn run. subst run.
  rewrite powerctl_not_quiescent by (auto using several_units_not_unit_0).
  repeat split.
Qed.

Lemma several_units_rejected_witness :
  result_of (arch_system_powerctl two_units
               ZX_SYSTEM_POWERCTL_ACPI_TRANSITION_S_STATE (request 2 0 0) booted)
  = Done ZX_ERR_BAD_STATE.
Proof.
  apply (several_units_rejected two_units (request 2 0 0) booted).
  - simpl. lia.
  - vm_compute. lia.
Defined.

(** C6: with the recognized command and target state 5 the online mask is not
    even queried: the call goes on to the hardware transition primitive, and
    the whole run is the same whatever mask the platform would report. *)
Theorem shutdown_skips_unit_check (p : Platform) (arg : zx_system_powerctl_arg_t)
    (m : Machine) :
  target_s_state arg = 5 ->
  let run := arch_system_powerctl p ZX_SYSTEM_POWERCTL_ACPI_TRANSITION_S_STATE arg m in
  In (E_x86_acpi_transition_s_state (address_of arch_system_powerctl_regs)
        5 (sleep_type_a arg) (sleep_type_b arg) (transition_status p))
     (calls_of run)
  /\ count is_mask_query (calls_of run) = 0%nat
  /\ result_of run <> Done ZX_ERR_BAD_STATE
  /\ forall mask,
       arch_system_powerctl (with_online_mask mask p)
         ZX_SYSTEM_POWERCTL_ACPI_TRANSITION_S_STATE arg m = run.
Proof.
  intros Ht run. subst run.
  rewrite powerctl_shutdown by assumption.
  split; [| split; [| split]].
  - cbn. auto.
  - reflexivity.
  - unfold result_of. cbn.
    destruct (transition_status p != AE_OK); discriminate.
  - intros mask. now rewrite powerctl_shutdown by assumption.
Qed.

Lemma shutdown_skips_unit_check_witness :
  In (E_x86_acpi_transition_s_state (address_of arch_system_powerctl_regs)
        5 0 0 AE_OK)
     (calls_of (arch_system_powerctl two_units
                  ZX_SYSTEM_POWERCTL_ACPI_TRANSITION_S_STATE (request 5 0 0) booted)).
Proof.
  apply (shutdown_skips_unit_check two_units (request 5 0 0) booted).
  reflexivity.
Defined.

(** C9: for a target state in [1,4] the check is that the online mask is
    exactly the mask of unit 0.  A request made while exactly one unit is
    online, that unit not being unit 0, is rejected with bad-state. *)
Theorem sole_unit_must_be_unit_0 (p : Platform) (arg : zx_system_powerctl_arg_t)
    (m : Machine) :
  1 <= target_s_state arg <= 4 ->
  online_count (online_mask p) = 1%nat ->
  Z.testbit (online_mask p) 0 = false ->
  let run := arch_system_powerctl p ZX_SYSTEM_POWERCTL_ACPI_TRANSITION_S_STATE arg m in
  result_of run = Done ZX_ERR_BAD_STATE
  /\ calls_of run = [E_mp_get_online_mask (online_mask p)]
  /\ machine_of run = m.
Proof.
  intros Ht Hone Hbit run. subst run.
  rewrite powerctl_not_quiescent by (auto using unit_0_offline_not_unit_0).
  repeat split.
Qed.

Lemma sole_unit_must_be_unit_0_witness :
  online_count (online_mask unit_1_alone) = 1%nat
  /\ result_of (arch_system_powerctl unit_1_alone
                  ZX_SYSTEM_POWERCTL_ACPI_TRANSITION_S_STATE (request 3 1 2) booted)
     = Done ZX_ERR_BAD_STATE.
Proof.
  split; [reflexivity |].
  apply (sole_unit_must_be_unit_0 unit_1_alone (request 3 1 2) booted).
  - simpl. lia.
  - reflexivity.
  - reflexivity.
Defined.

(** ** The resumable path *)

(** C8: for a valid resumable request (target state in [1,4], unit 0 alone
    online), when the thread cannot be created the entry point returns
    [ZX_ERR_NO_MEMORY], the resource-exhaustion status, having called nothing
    but the mask query and the failed creation: nothing was acquired, the
    machine is as it was.  Otherwise the thread is started and joined with
    [ZX_TIME_INFINITE], and what [suspend_thread] returned is what the entry
    point returns. *)
Theorem thread_outcome_propagated (p : Platform) (arg : zx_system_powerctl_arg_t)
    (m : Machine) :
  1 <= target_s_state arg <= 4 ->
  online_mask p = cpu_num_to_mask 0 ->
  let run := arch_system_powerctl p ZX_SYSTEM_POWERCTL_ACPI_TRANSITION_S_STATE arg m in
  let attempt := suspend_thread p arg m in
  (thread_created p = false ->
     result_of run = Done ZX_ERR_NO_MEMORY
     /\ calls_of run = [E_mp_get_online_mask (online_mask p);
                        E_thread_create "suspend-thread" false]
     /\ count is_acquire (calls_of run) = 0%nat
     /\ count is_set_vector (calls_of run) = 0%nat
     /\ machine_of run = m)
  /\ (thread_created p = true ->
      thread_resume_status p = ZX_OK ->
      thread_join_status p = ZX_OK ->
      forall retcode, result_of attempt = Done retcode ->
        result_of run = Done retcode
        /\ calls_of run
           = [E_mp_get_online_mask (cpu_num_to_mask 0);
              E_thread_create "suspend-thread" true;
              E_thread_resume ZX_OK]
             ++ calls_of attempt
             ++ [E_thread_join ZX_TIME_INFINITE ZX_OK retcode]
        /\ machine_of run = machine_of attempt).
Proof.
  intros Ht Hmask run attempt. subst run attempt. split.
  - intros Hcreate. rewrite powerctl_no_thread by assumption.
    repeat split.
  - intros Hcreate Hresume Hjoin retcode Hret.
    rewrite (powerctl_joined p arg m retcode) by assumption.
    repeat split.
Qed.

Lemma thread_outcome_propagated_witness :
  result_of (arch_system_powerctl no_thread
               ZX_SYSTEM_POWERCTL_ACPI_TRANSITION_S_STATE (request 3 1 2) booted)
  = Done ZX_ERR_NO_MEMORY
  /\ result_of (arch_system_powerctl table_missing
                  ZX_SYSTEM_POWERCTL_ACPI_TRANSITION_S_STATE (request 3 1 2) booted)
     = Done ZX_ERR_BAD_STATE.
Proof.
  split.
  - destruct (thread_outcome_propagated no_thread (request 3 1 2) booted)
      as [Hfail _].
    + simpl. lia.
    + reflexivity.
    + apply Hfail. reflexivity.
  - destruct (thread_outcome_propagated table_missing (request 3 1 2) booted)
      as [_ Hjoined].
    + simpl. lia.
    + reflexivity.
    + apply Hjoined; reflexivity.
Defined.

(** C7: when, on the resumable path, the hardware transition primitive
    returns a status other than [AE_OK], the attempt calls [arch_enable_ints],
    then clears the waking vector, then releases the bootstrap resource, and
    returns [ZX_ERR_INTERNAL]; it ends with interrupts enabled, the waking
    vector at 0 and the bootstrap resource not held.  The entry point, having
    created and started the thread, joins it and returns that
    [ZX_ERR_INTERNAL] to its caller: its calls are the thread's, between the
    start and the join that hands out [ZX_ERR_INTERNAL], and it leaves the
    machine as the attempt left it. *)
Theorem firmware_rejection_is_internal_error (p : Platform)
    (arg : zx_system_powerctl_arg_t) (m : Machine) :
  acquire_status p = ZX_OK ->
  get_table_status p = AE_OK ->
  arming_status p = AE_OK ->
  transition_status p <> AE_OK ->
  let attempt := suspend_thread p arg m in
  let run := arch_system_powerctl p ZX_SYSTEM_POWERCTL_ACPI_TRANSITION_S_STATE arg m in
  result_of attempt = Done ZX_ERR_INTERNAL
  /\ calls_of attempt
     = [E_x86_bootstrap16_acquire ZX_OK (acquire_ip p);
        E_AcpiGetTable AE_OK;
        E_AcpiHwSetFirmwareWakingVector (acquire_ip p) AE_OK;
        E_arch_disable_ints; E_platform_suspend; E_arch_suspend;
        E_x86_acpi_transition_s_state (address_of suspend_thread_regs)
          (target_s_state arg) (sleep_type_a arg) (sleep_type_b arg)
          (transition_status p);
        E_arch_enable_ints;
        E_AcpiHwSetFirmwareWakingVector 0 AE_OK;
        E_x86_bootstrap16_release]
  /\ ints_enabled (machine_of attempt) = true
  /\ waking_vector (machine_of attempt) = 0
  /\ bootstrap_held (machine_of attempt) = false
  /\ (1 <= target_s_state arg <= 4 ->
      online_mask p = cpu_num_to_mask 0 ->
      thread_created p = true ->
      thread_resume_status p = ZX_OK ->
      thread_join_status p = ZX_OK ->
      result_of run = Done ZX_ERR_INTERNAL
      /\ calls_of run
         = [E_mp_get_online_mask (cpu_num_to_mask 0);
            E_thread_create "suspend-thread" true;
            E_thread_resume ZX_OK]
           ++ calls_of attempt
           ++ [E_thread_join ZX_TIME_INFINITE ZX_OK ZX_ERR_INTERNAL]
      /\ machine_of run = machine_of attempt).
Proof.
  intros Ha Hg Hs Hr attempt run.
  assert (Hattempt : attempt
                     = (Done ZX_ERR_INTERNAL, unwound m, calls_on p arg Rejected)).
  { subst attempt. rewrite suspend_thread_exit.
    now rewrite (exit_rejected p Ha Hg Hs Hr). }
  split; [now rewrite Hattempt |].
  split.
  { rewrite Hattempt. unfold calls_of. cbn. unfold acquire_calls. now rewrite Ha. }
  split; [now rewrite Hattempt |].
  split; [now rewrite Hattempt |].
  split; [now rewrite Hattempt |].
  intros Ht Hmask Hcreate Hresume Hjoin. subst run.
  rewrite (powerctl_joined p arg m ZX_ERR_INTERNAL); try assumption.
  - repeat split.
  - fold attempt. now rewrite Hattempt.
Qed.

Lemma firmware_rejection_is_internal_error_witness :
  result_of (suspend_thread firmware_rejects (request 3 1 2) booted)
  = Done ZX_ERR_INTERNAL
  /\ result_of (arch_system_powerctl firmware_rejects
                  ZX_SYSTEM_POWERCTL_ACPI_TRANSITION_S_STATE (request 3 1 2) booted)
     = Done ZX_ERR_INTERNAL
  /\ machine_of (arch_system_powerctl firmware_rejects
                   ZX_SYSTEM_POWERCTL_ACPI_TRANSITION_S_STATE (request 3 1 2) booted)
     = machine_of (suspend_thread firmware_rejects (request 3 1 2) booted).
Proof.
  destruct (firmware_rejection_is_internal_error firmware_rejects
              (request 3 1 2) booted)
    as (Hattempt & _ & _ & _ & _ & Hrun).
  - reflexivity.
  - reflexivity.
  - reflexivity.
  - vm_compute. discriminate.
  - split; [exact Hattempt |].
    destruct Hrun as (Hresult & _ & Hmachine); try reflexivity.
    + simpl. lia.
    + split; [exact Hresult | exact Hmachine].
Defined.

Lemma resumed_run (p : Platform) (arg : zx_system_powerctl_arg_t) (m : Machine) :
  result_of (suspend_thread p arg m) = Done ZX_OK ->
  suspend_thread p arg m = (Done ZX_OK, unwound m, calls_on p arg Resumed)
  /\ acquire_status p = ZX_OK /\ transition_status p = AE_OK
  /\ ints_at_resume p = false /\ ints_at_restored p = false.
Proof.
  intros Hok. pose proof (returns_ok_resumed p arg m Hok) as Hexit.
  pose proof (exit_of_cases p) as H. rewrite Hexit in H.
  destruct H as (Ha & _ & _ & Ht & H1 & H2).
  rewrite suspend_thread_exit, Hexit. auto.
Qed.

Lemma armed_run (p : Platform) (arg : zx_system_powerctl_arg_t) (m : Machine)
    (r : zx_status_t) :
  result_of (suspend_thread p arg m) = Done r ->
  In (E_AcpiHwSetFirmwareWakingVector (acquire_ip p) AE_OK)
     (calls_of (suspend_thread p arg m)) ->
  acquire_status p = ZX_OK
  /\ (exit_of p = Rejected \/ exit_of p = Resumed).
Proof.
  rewrite suspend_thread_exit. unfold result_of, calls_of. cbn [fst snd].
  pose proof (exit_of_cases p) as H.
  destruct (exit_of p); cbn; intros Hr Hin; try discriminate Hr.
  - destruct Hin as [Hin | []]. discriminate Hin.
  - destruct Hin as [Hin | [Hin | [Hin | []]]]; discriminate Hin.
  - destruct H as (_ & _ & Hs).
    destruct Hin as [Hin | [Hin | [Hin | [Hin | []]]]]; try discriminate Hin.
    injection Hin as Hin. congruence.
  - intuition.
  - intuition.
Qed.

(** C2: on a genuine resume (the attempt returns [ZX_OK]) the transition
    primitive has returned with interrupts disabled -- the query of line 92
    answers true -- then [arch_resume], [platform_resume] and
    [timer_thaw_percpu] run, then [arch_enable_ints], and only then is the
    waking vector cleared and, after it, the bootstrap resource released.
    On every returning path where the bootstrap resource was acquired and the
    waking vector armed, the log starts with the acquisition and the arming
    and ends with the clearing followed by the release, with no other
    acquire, release or vector call in between. *)
Theorem restore_precedes_unwind (p : Platform) (arg : zx_system_powerctl_arg_t)
    (m : Machine) :
  let attempt := suspend_thread p arg m in
  (result_of attempt = Done ZX_OK ->
     ints_at_resume p = false
     /\ calls_of attempt
        = [E_x86_bootstrap16_acquire ZX_OK (acquire_ip p);
           E_AcpiGetTable AE_OK;
           E_AcpiHwSetFirmwareWakingVector (acquire_ip p) AE_OK;
           E_arch_disable_ints; E_platform_suspend; E_arch_suspend;
           E_x86_acpi_transition_s_state (address_of suspend_thread_regs)
             (target_s_state arg) (sleep_type_a arg) (sleep_type_b arg) AE_OK;
           E_arch_ints_disabled true;
           E_arch_resume; E_platform_resume; E_timer_thaw_percpu;
           E_arch_ints_disabled true;
           E_arch_enable_ints;
           E_AcpiHwSetFirmwareWakingVector 0 AE_OK;
           E_x86_bootstrap16_release]
     /\ in_order
          [E_arch_ints_disabled true;
           E_arch_resume; E_platform_resume; E_timer_thaw_percpu;
           E_arch_enable_ints;
           E_AcpiHwSetFirmwareWakingVector 0 AE_OK;
           E_x86_bootstrap16_release]
          (calls_of attempt))
  /\ (forall r,
        result_of attempt = Done r ->
        In (E_AcpiHwSetFirmwareWakingVector (acquire_ip p) AE_OK)
           (calls_of attempt) ->
        exists between,
          calls_of attempt
          = [E_x86_bootstrap16_acquire ZX_OK (acquire_ip p);
             E_AcpiGetTable AE_OK;
             E_AcpiHwSetFirmwareWakingVector (acquire_ip p) AE_OK]
            ++ between
            ++ [E_AcpiHwSetFirmwareWakingVector 0 AE_OK;
                E_x86_bootstrap16_release]
          /\ count is_acquire between = 0%nat
          /\ count is_release between = 0%nat
          /\ count is_set_vector between = 0%nat
          /\ count is_clear_vector between = 0%nat).
Proof.
  intros attempt. subst attempt. split.
  - intros Hok. destruct (resumed_run p arg m Hok) as (Hrun & Ha & Ht & H1 & _).
    rewrite Hrun. unfold calls_of. cbn. unfold acquire_calls.
    rewrite Ha, Ht. repeat split; try assumption. in_order.
  - intros r Hr Hin. destruct (armed_run p arg m r Hr Hin) as (Ha & Hexit).
    rewrite suspend_thread_exit. unfold calls_of. cbn [snd].
    destruct Hexit as [-> | ->]; cbn; unfold acquire_calls; rewrite Ha.
    + eexists [_; _; _; _; _]. repeat split.
    + eexists [_; _; _; _; _; _; _; _; _; _]. repeat split.
Qed.

Lemma restore_precedes_unwind_witness :
  in_order
    [E_arch_ints_disabled true;
     E_arch_resume; E_platform_resume; E_timer_thaw_percpu;
     E_arch_enable_ints;
     E_AcpiHwSetFirmwareWakingVector 0 AE_OK;
     E_x86_bootstrap16_release]
    (calls_of (suspend_thread all_succeed (request 3 1 2) booted))
  /\ exists between,
       calls_of (suspend_thread firmware_rejects (request 3 1 2) booted)
       = [E_x86_bootstrap16_acquire ZX_OK 32768;
          E_AcpiGetTable AE_OK;
          E_AcpiHwSetFirmwareWakingVector 32768 AE_OK]
         ++ between
         ++ [E_AcpiHwSetFirmwareWakingVector 0 AE_OK;
             E_x86_bootstrap16_release].
Proof.
  split.
  - destruct (restore_precedes_unwind all_succeed (request 3 1 2) booted)
      as [Hresumed _].
    apply Hresumed. reflexivity.
  - destruct (restore_precedes_unwind firmware_rejects (request 3 1 2) booted)
      as [_ Hnested].
    destruct (Hnested ZX_ERR_INTERNAL) as (between & Hcalls & _).
    + reflexivity.
    + vm_compute. auto 10.
    + exists between. exact Hcalls.
Defined.

Lemma exit_restore_assert_failed (p : Platform) :
  acquire_status p = ZX_OK -> get_table_status p = AE_OK ->
  arming_status p = AE_OK -> transition_status p = AE_OK ->
  ints_at_resume p = false -> ints_at_restored p = true ->
  exit_of p = RestoreAssertFailed.
Proof.
  intros Ha Hg Hs Ht H1 H2. unfold exit_of. now rewrite Ha, Hg, Hs, Ht, H1, H2.
Qed.

Example resume_enables_run :
  suspend_thread resume_enables (request 3 1 2) booted
  = (Done ZX_OK,
     {| ints_enabled := true; waking_vector := 0; bootstrap_held := false;
        registers_ptr := address_of suspend_thread_regs |},
     [E_x86_bootstrap16_acquire ZX_OK 32768;
      E_AcpiGetTable AE_OK;
      E_AcpiHwSetFirmwareWakingVector 32768 AE_OK;
      E_arch_disable_ints; E_platform_suspend; E_arch_suspend;
      E_x86_acpi_transition_s_state (address_of suspend_thread_regs) 3 1 2 AE_OK;
      E_arch_ints_disabled true;
      E_arch_resume; E_platform_resume; E_timer_thaw_percpu;
      E_arch_ints_disabled true;
      E_arch_enable_ints;
      E_AcpiHwSetFirmwareWakingVector 0 AE_OK;
      E_x86_bootstrap16_release]).
Proof. reflexivity. Qed.

(** C10, as stated, fails on a platform whose [arch_resume] returns with
    interrupts enabled and whose [platform_resume] disables them again: the
    assertion of line 98 holds and the attempt returns [ZX_OK], yet interrupts
    were enabled by a restore primitive before [suspend_thread] enabled
    them. *)
Lemma restore_primitive_may_enable :
  ~ restore_as_claimed resume_enables (request 3 1 2) booted.
Proof.
  unfold restore_as_claimed. rewrite resume_enables_run.
  intros Hclaim. destruct (Hclaim eq_refl) as (Hresume & _).
  discriminate Hresume.
Qed.

(** C10, amended: the code checks the interrupt flag once, after the three
    restore primitives have run.  On the successful exit of a resumable
    attempt the flag is off at that point -- the query of the assertion of
    line 98 answers true -- and [arch_enable_ints] is called exactly once in
    the attempt, by [suspend_thread] itself, right after that assertion.
    Once the transition primitive has returned [AE_OK] with interrupts
    disabled, the attempt returns [ZX_OK] whenever the three primitives
    together leave the flag off; when they leave it on, the assertion stops
    the kernel and [arch_enable_ints] is never called.  What a single restore
    primitive does to the flag in between is not checked. *)
Theorem restore_assertion_guards_enable (p : Platform)
    (arg : zx_system_powerctl_arg_t) (m : Machine) :
  let attempt := suspend_thread p arg m in
  let flag_when_restored :=
    ints_after p op_timer_thaw_percpu
      (ints_after p op_platform_resume (ints_after p op_arch_resume false)) in
  (result_of attempt = Done ZX_OK ->
     flag_when_restored = false
     /\ (exists before unwinding,
           calls_of attempt
           = before
             ++ [E_arch_resume; E_platform_resume; E_timer_thaw_percpu;
                 E_arch_ints_disabled true;
                 E_arch_enable_ints]
             ++ unwinding
           /\ count is_enable_ints before = 0%nat
           /\ count is_enable_ints unwinding = 0%nat)
     /\ count is_enable_ints (calls_of attempt) = 1%nat
     /\ ints_enabled (machine_of attempt) = true)
  /\ (acquire_status p = ZX_OK -> get_table_status p = AE_OK ->
      arming_status p = AE_OK -> transition_status p = AE_OK ->
      ints_at_resume p = false ->
      (flag_when_restored = false -> result_of attempt = Done ZX_OK)
      /\ (flag_when_restored = true ->
          result_of attempt = Panic
          /\ count is_enable_ints (calls_of attempt) = 0%nat
          /\ exists before,
               calls_of attempt
               = before
                 ++ [E_arch_resume; E_platform_resume; E_timer_thaw_percpu;
                     E_arch_ints_disabled false])).
Proof.
  intros attempt flag_when_restored. subst attempt flag_when_restored. split.
  - intros Hok.
    destruct (resumed_run p arg m Hok) as (Hrun & Ha & Ht & _ & H2).
    rewrite Hrun. unfold calls_of, machine_of. cbn.
    split; [exact H2 |].
    split; [| split; reflexivity].
    eexists [_; _; _; _; _; _; _; _], [_; _]. repeat split.
  - intros Ha Hg Hs Ht H1. split.
    + intros H2. rewrite suspend_thread_exit.
      now rewrite (exit_resumed p Ha Hg Hs Ht H1 H2).
    + intros H2. rewrite suspend_thread_exit.
      rewrite (exit_restore_assert_failed p Ha Hg Hs Ht H1 H2).
      unfold result_of, calls_of. cbn.
      repeat split.
      eexists [_; _; _; _; _; _; _; _]. reflexivity.
Qed.

Lemma restore_assertion_guards_enable_witness :
  count is_enable_ints
    (calls_of (suspend_thread all_succeed (request 3 1 2) booted)) = 1%nat
  /\ result_of (suspend_thread all_succeed (request 3 1 2) booted) = Done ZX_OK
  /\ result_of (suspend_thread restore_enables (request 3 1 2) booted) = Panic.
Proof.
  split; [| split].
  - destruct (restore_assertion_guards_enable all_succeed (request 3 1 2) booted)
      as [Hsuccess _].
    apply Hsuccess. reflexivity.
  - destruct (restore_assertion_guards_enable all_succeed (request 3 1 2) booted)
      as [_ Hgate].
    exact (proj1 (Hgate eq_refl eq_refl eq_refl eq_refl eq_refl) eq_refl).
  - destruct (restore_assertion_guards_enable restore_enables (request 3 1 2) booted)
      as [_ Hgate].
    exact (proj1 (proj2 (Hgate eq_refl eq_refl eq_refl eq_refl eq_refl) eq_refl)).
Defined.

(** ** The unwind of [suspend_thread] *)

Example arm_fails_run :
  suspend_thread arm_fails (request 3 1 2) booted
  = (Done ZX_ERR_BAD_STATE, booted,
     [E_x86_bootstrap16_acquire ZX_OK 32768;
      E_AcpiGetTable AE_OK;
      E_AcpiHwSetFirmwareWakingVector 32768 AE_ERROR;
      E_x86_bootstrap16_release]).
Proof. reflexivity. Qed.

Example table_missing_run :
  suspend_thread table_missing (request 3 1 2) booted
  = (Done ZX_ERR_BAD_STATE, booted,
     [E_x86_bootstrap16_acquire ZX_OK 32768;
      E_AcpiGetTable AE_ERROR;
      E_x86_bootstrap16_release]).
Proof. reflexivity. Qed.

(** C1, as stated, fails when arming the waking vector fails (line 66): the
    set call was made once and no clear call is made, the guard of line 68
    not being constructed yet. *)
Lemma unwind_not_uniform :
  ~ unwind_as_claimed arm_fails (request 3 1 2) booted.
Proof.
  unfold unwind_as_claimed. rewrite arm_fails_run.
  intros (_ & _ & Hcount & _). vm_compute in Hcount. discriminate Hcount.
Qed.

(** C1, amended: on every returning exit of an attempt whose bootstrap
    acquisition succeeded, the bootstrap resource is acquired once and
    released once, the release being the last call, and the resource is not
    held at the end.  Where the waking vector was armed (the exits of lines 87
    and 100), set and clear are each called once, the clear comes right
    before the release and the vector ends at 0.  Where the table lookup
    failed, neither set nor clear is called; where arming failed, set was
    called once and clear is not called. *)
Theorem unwind_follows_guards (p : Platform) (arg : zx_system_powerctl_arg_t)
    (m : Machine) (r : zx_status_t) :
  acquire_status p = ZX_OK ->
  acquire_ip p <> 0 ->
  result_of (suspend_thread p arg m) = Done r ->
  let attempt := suspend_thread p arg m in
  count is_acquire (calls_of attempt) = 1%nat
  /\ count is_release (calls_of attempt) = 1%nat
  /\ (exists before, calls_of attempt = before ++ [E_x86_bootstrap16_release])
  /\ bootstrap_held (machine_of attempt) = false
  /\ (get_table_status p = AE_OK -> set_vector_status p = AE_OK ->
      count is_set_vector (calls_of attempt) = 1%nat
      /\ count is_clear_vector (calls_of attempt) = 1%nat
      /\ (exists before,
            calls_of attempt
            = before ++ [E_AcpiHwSetFirmwareWakingVector 0 AE_OK;
                         E_x86_bootstrap16_release])
      /\ waking_vector (machine_of attempt) = 0)
  /\ (get_table_status p <> AE_OK ->
      count is_set_vector (calls_of attempt) = 0%nat
      /\ count is_clear_vector (calls_of attempt) = 0%nat)
  /\ (get_table_status p = AE_OK -> set_vector_status p <> AE_OK ->
      count is_set_vector (calls_of attempt) = 1%nat
      /\ count is_clear_vector (calls_of attempt) = 0%nat).
Proof.
  intros Ha Hip Hr attempt. subst attempt.
  pose proof (arming_status_nonzero p Hip) as Harm.
  assert (Eip : (acquire_ip p =? 0) = false) by now apply Z.eqb_neq.
  revert Hr. rewrite suspend_thread_exit.
  unfold result_of, calls_of, machine_of. cbn [fst snd].
  pose proof (exit_of_cases p) as H. rewrite Harm in H.
  destruct (exit_of p); cbn; intros Hr; try discriminate Hr;
    unfold count; cbn; rewrite ?Eip; cbn.
  - contradiction.
  - destruct H as (_ & Hg).
    repeat split; try contradiction.
    eexists [_; _]. reflexivity.
  - destruct H as (_ & Hg & Hs).
    repeat split; try contradiction.
    eexists [_; _; _]. reflexivity.
  - destruct H as (_ & Hg & Hs & Ht).
    repeat split; try contradiction.
    + eexists [_; _; _; _; _; _; _; _; _]. reflexivity.
    + eexists [_; _; _; _; _; _; _; _]. reflexivity.
  - destruct H as (_ & Hg & Hs & Ht & _).
    repeat split; try contradiction.
    + eexists [_; _; _; _; _; _; _; _; _; _; _; _; _; _]. reflexivity.
    + eexists [_; _; _; _; _; _; _; _; _; _; _; _; _]. reflexivity.
Qed.

Lemma unwind_follows_guards_witness :
  (count is_set_vector (calls_of (suspend_thread arm_fails (request 3 1 2) booted))
   = 1%nat
   /\ count is_clear_vector (calls_of (suspend_thread arm_fails (request 3 1 2) booted))
      = 0%nat)
  /\ (count is_set_vector (calls_of (suspend_thread table_missing (request 3 1 2) booted))
      = 0%nat
      /\ count is_clear_vector
           (calls_of (suspend_thread table_missing (request 3 1 2) booted))
         = 0%nat)
  /\ waking_vector (machine_of (suspend_thread firmware_rejects (request 3 1 2) booted))
     = 0.
Proof.
  split; [| split].
  - destruct (unwind_follows_guards arm_fails (request 3 1 2) booted ZX_ERR_BAD_STATE)
      as (_ & _ & _ & _ & _ & _ & Hfailed).
    + reflexivity.
    + vm_compute. discriminate.
    + reflexivity.
    + apply Hfailed.
      * reflexivity.
      * vm_compute. discriminate.
  - destruct (unwind_follows_guards table_missing (request 3 1 2) booted
                ZX_ERR_BAD_STATE)
      as (_ & _ & _ & _ & _ & Hmissing & _).
    + reflexivity.
    + vm_compute. discriminate.
    + reflexivity.
    + apply Hmissing. vm_compute. discriminate.
  - destruct (unwind_follows_guards firmware_rejects (request 3 1 2) booted
                ZX_ERR_INTERNAL)
      as (_ & _ & _ & _ & Harmed & _).
    + reflexivity.
    + vm_compute. discriminate.
    + reflexivity.
    + apply Harmed; reflexivity.
Defined.

(** ** The non-resumable path *)

Example shutdown_returns_run :
  arch_system_powerctl all_succeed ZX_SYSTEM_POWERCTL_ACPI_TRANSITION_S_STATE
    (request 5 0 0) booted
  = (Done ZX_OK, booted,
     [E_arch_disable_ints;
      E_x86_acpi_transition_s_state (address_of arch_system_powerctl_regs)
        5 0 0 AE_OK;
      E_arch_enable_ints]).
Proof. reflexivity. Qed.

(** C3, as stated, fails when the transition primitive returns [AE_OK] for
    target state 5: the entry point returns [ZX_OK] (line 161), after having
    enabled interrupts (line 155) and having passed the address of its local
    [regs] (line 153). *)
Lemma shutdown_return_is_success :
  ~ shutdown_as_claimed all_succeed (request 5 0 0) booted.
Proof.
  unfold shutdown_as_claimed. rewrite shutdown_returns_run.
  intros (_ & _ & Hresult). specialize (Hresult eq_refl). discriminate Hresult.
Qed.

(** C3, amended: for target state 5 the entry point calls, on the calling
    context and with no thread and no resource taken, [arch_disable_ints],
    then the hardware transition primitive with the address of its local
    register-capture structure, then [arch_enable_ints] whatever the
    primitive returned.  A status other than [AE_OK] is returned as
    [ZX_ERR_INTERNAL], and [AE_OK] as [ZX_OK]. *)
Theorem shutdown_runs_inline (p : Platform) (arg : zx_system_powerctl_arg_t)
    (m : Machine) :
  target_s_state arg = 5 ->
  let run := arch_system_powerctl p ZX_SYSTEM_POWERCTL_ACPI_TRANSITION_S_STATE arg m in
  calls_of run
  = [E_arch_disable_ints;
     E_x86_acpi_transition_s_state (address_of arch_system_powerctl_regs)
       5 (sleep_type_a arg) (sleep_type_b arg) (transition_status p);
     E_arch_enable_ints]
  /\ ints_enabled (machine_of run) = true
  /\ (transition_status p <> AE_OK -> result_of run = Done ZX_ERR_INTERNAL)
  /\ (transition_status p = AE_OK -> result_of run = Done ZX_OK).
Proof.
  intros Ht run. subst run.
  rewrite powerctl_shutdown by assumption.
  unfold calls_of, machine_of, result_of. cbn.
  repeat split.
  - intros Hst. apply Z.eqb_neq in Hst. now rewrite Hst.
  - intros Hst. now rewrite Hst.
Qed.

Lemma shutdown_runs_inline_witness :
  result_of (arch_system_powerctl firmware_rejects
               ZX_SYSTEM_POWERCTL_ACPI_TRANSITION_S_STATE (request 5 0 0) booted)
  = Done ZX_ERR_INTERNAL
  /\ result_of (arch_system_powerctl two_units
                  ZX_SYSTEM_POWERCTL_ACPI_TRANSITION_S_STATE (request 5 0 0) booted)
     = Done ZX_OK.
Proof.
  split.
  - destruct (shutdown_runs_inline firmware_rejects (request 5 0 0) booted)
      as (_ & _ & Hfailed & _).
    + reflexivity.
    + apply Hfailed. vm_compute. discriminate.
  - destruct (shutdown_runs_inline two_units (request 5 0 0) booted)
      as (_ & _ & _ & Hreturned).
    + reflexivity.
    + apply Hreturned. reflexivity.
Defined.

(** * Further properties of the two functions *)

(** ** [arch_system_powerctl] takes the tabulated exit *)

Lemma powerctl_exit (p : Platform) (cmd : Z) (arg : zx_system_powerctl_arg_t)
    (m : Machine) :
  arch_system_powerctl p cmd arg m = entry_run p arg m (entry_exit_of p cmd arg).
Proof.
  unfold arch_system_powerctl, entry_exit_of.
  destruct (cmd =? ZX_SYSTEM_POWERCTL_ACPI_TRANSITION_S_STATE); cbn [negb];
    [| reflexivity].
  destruct ((target_s_state arg =? 0) || (target_s_state arg >? 5)) eqn:Erange;
    [reflexivity |].
  apply orb_false_iff in Erange. destruct Erange as [E0 Egt].
  rewrite Z.gtb_ltb in Egt. apply Z.ltb_ge in Egt. apply Z.eqb_neq in E0.
  unfold_calls.
  destruct (target_s_state arg =? 5) eqn:E5; cbn [negb andb].
  - apply Z.eqb_eq in E5.
    assert (L5 : (target_s_state arg <? 5) = false) by (apply Z.ltb_ge; lia).
    rewrite L5. cbn. rewrite E5. cbn.
    destruct (transition_status p =? AE_OK); reflexivity.
  - apply Z.eqb_neq in E5.
    assert (L5 : (target_s_state arg <? 5) = true) by (apply Z.ltb_lt; lia).
    rewrite L5. cbn.
    destruct (online_mask p =? cpu_num_to_mask 0); cbn; [| reflexivity].
    destruct (thread_created p); cbn; [| reflexivity].
    destruct (thread_resume_status p =? ZX_OK); cbn; [| reflexivity].
    unfold join_run, result_of, machine_of, calls_of.
    destruct (suspend_thread p arg m) as [[[rc|] m1] t1]; cbn; [| reflexivity].
    destruct (thread_join_status p =? ZX_OK); cbn; [| now rewrite app_nil_r].
    destruct (rc =? ZX_OK) eqn:Erc; cbn.
    + apply Z.eqb_eq in Erc. subst rc. now rewrite app_nil_r.
    + now rewrite app_nil_r.
Qed.

Lemma entry_exit_of_cases (p : Platform) (cmd : Z) (arg : zx_system_powerctl_arg_t) :
  match entry_exit_of p cmd arg with
  | Unsupported => cmd <> ZX_SYSTEM_POWERCTL_ACPI_TRANSITION_S_STATE
  | InvalidTarget =>
      cmd = ZX_SYSTEM_POWERCTL_ACPI_TRANSITION_S_STATE
      /\ (target_s_state arg = 0 \/ 5 < target_s_state arg)
  | NotQuiescent =>
      cmd = ZX_SYSTEM_POWERCTL_ACPI_TRANSITION_S_STATE
      /\ target_s_state arg <> 0 /\ target_s_state arg < 5
      /\ online_mask p <> cpu_num_to_mask 0
  | NoThread =>
      cmd = ZX_SYSTEM_POWERCTL_ACPI_TRANSITION_S_STATE
      /\ target_s_state arg <> 0 /\ target_s_state arg < 5
      /\ online_mask p = cpu_num_to_mask 0
      /\ thread_created p = false
  | ResumeAsserted =>
      cmd = ZX_SYSTEM_POWERCTL_ACPI_TRANSITION_S_STATE
      /\ target_s_state arg <> 0 /\ target_s_state arg < 5
      /\ online_mask p = cpu_num_to_mask 0
      /\ thread_created p = true
      /\ thread_resume_status p <> ZX_OK
  | Threaded =>
      cmd = ZX_SYSTEM_POWERCTL_ACPI_TRANSITION_S_STATE
      /\ target_s_state arg <> 0 /\ target_s_state arg < 5
      /\ online_mask p = cpu_num_to_mask 0
      /\ thread_created p = true
      /\ thread_resume_status p = ZX_OK
  | Shutdown =>
      cmd = ZX_SYSTEM_POWERCTL_ACPI_TRANSITION_S_STATE
      /\ target_s_state arg = 5
  end.
Proof.
  unfold entry_exit_of.
  destruct (Z.eqb_spec cmd ZX_SYSTEM_POWERCTL_ACPI_TRANSITION_S_STATE) as [Hc|Hc];
    cbn [negb]; [| exact Hc].
  destruct ((target_s_state arg =? 0) || (target_s_state arg >? 5)) eqn:Erange.
  { split; [exact Hc |]. apply orb_true_iff in Erange.
    destruct Erange as [E|E]; [left; now apply Z.eqb_eq | right].
    rewrite Z.gtb_ltb in E. now apply Z.ltb_lt. }
  apply orb_false_iff in Erange. destruct Erange as [E0 Egt].
  rewrite Z.gtb_ltb in Egt. apply Z.ltb_ge in Egt. apply Z.eqb_neq in E0.
  destruct (Z.eqb_spec (target_s_state arg) 5) as [E5|E5]; cbn [negb andb].
  - assert (L5 : (target_s_state arg <? 5) = false) by (apply Z.ltb_ge; lia).
    rewrite L5. now split.
  - assert (L5 : (target_s_state arg <? 5) = true) by (apply Z.ltb_lt; lia).
    assert (Hlt : target_s_state arg < 5) by lia.
    destruct (Z.eqb_spec (online_mask p) (cpu_num_to_mask 0)) as [Hm|Hm];
      cbn [negb]; [| now repeat split].
    rewrite L5.
    destruct (thread_created p) eqn:Hcreate; [| now repeat split].
    destruct (Z.eqb_spec (thread_resume_status p) ZX_OK) as [Hr|Hr];
      now repeat split.
Qed.

Lemma exit_acquire_failed (p : Platform) :
  acquire_status p <> ZX_OK -> exit_of p = AcquireFailed.
Proof.
  intros Ha. unfold exit_of. apply Z.eqb_neq in Ha. now rewrite Ha.
Qed.

Lemma exit_setup_failed (p : Platform) :
  acquire_status p = ZX_OK ->
  get_table_status p <> AE_OK \/ arming_status p <> AE_OK ->
  exit_of p = TableMissing \/ exit_of p = ArmFailed.
Proof.
  intros Ha Hsetup.
  destruct (Z.eq_dec (get_table_status p) AE_OK) as [Hg|Hg].
  - right. destruct Hsetup as [Hs|Hs]; [contradiction |].
    now apply exit_arm_failed.
  - left. now apply exit_table_missing.
Qed.

(** The entry point runs the thread when the request is a resumable one, unit
    0 is alone online and the thread primitives succeed. *)
Lemma entry_threaded (p : Platform) (arg : zx_system_powerctl_arg_t) :
  1 <= target_s_state arg <= 4 ->
  online_mask p = cpu_num_to_mask 0 ->
  thread_created p = true ->
  thread_resume_status p = ZX_OK ->
  entry_exit_of p ZX_SYSTEM_POWERCTL_ACPI_TRANSITION_S_STATE arg = Threaded.
Proof.
  intros Ht Hmask Hcreate Hresume. unfold entry_exit_of.
  rewrite Z.eqb_refl. cbn [negb].
  rewrite valid_target_tests by lia.
  assert (L5 : (target_s_state arg <? 5) = true) by (apply Z.ltb_lt; lia).
  rewrite Hmask, Z.eqb_refl, L5, Hcreate, Hresume, andb_false_r. reflexivity.
Qed.

(** ** Errors before the hardware is touched *)

(** X1: an unrecognized command is answered [ZX_ERR_NOT_SUPPORTED] before the
    request is looked at: whatever the target state (valid or not) and
    whatever the platform, no collaborator is called and the machine is left
    as it was. *)
Theorem unsupported_command_rejected_first (p : Platform) (cmd : Z)
    (arg : zx_system_powerctl_arg_t) (m : Machine) :
  cmd <> ZX_SYSTEM_POWERCTL_ACPI_TRANSITION_S_STATE ->
  arch_system_powerctl p cmd arg m = (Done ZX_ERR_NOT_SUPPORTED, m, []).
Proof.
  intros Hcmd. rewrite powerctl_exit.
  pose proof (entry_exit_of_cases p cmd arg) as H.
  destruct (entry_exit_of p cmd arg); try reflexivity;
    destruct H as (Hc & _); contradiction.
Qed.

Lemma unsupported_command_rejected_first_witness :
  arch_system_powerctl two_units 7 (request 0 0 0) booted
  = (Done ZX_ERR_NOT_SUPPORTED, booted, [])
  /\ arch_system_powerctl all_succeed 0 (request 3 1 2) booted
     = (Done ZX_ERR_NOT_SUPPORTED, booted, []).
Proof.
  split.
  - apply (unsupported_command_rejected_first two_units 7 (request 0 0 0) booted).
    vm_compute. discriminate.
  - apply (unsupported_command_rejected_first all_succeed 0 (request 3 1 2) booted).
    vm_compute. discriminate.
Defined.

(** X2: when the bootstrap acquisition fails, the attempt returns the status of
    [x86_bootstrap16_acquire] as it is, whichever it is, having made no other
    call: nothing is released and the machine is as it was.  The entry point
    hands that same status to its caller. *)
Theorem acquire_failure_returned_as_is (p : Platform)
    (arg : zx_system_powerctl_arg_t) (m : Machine) :
  acquire_status p <> ZX_OK ->
  suspend_thread p arg m
  = (Done (acquire_status p), m,
     [E_x86_bootstrap16_acquire (acquire_status p) (acquire_ip p)])
  /\ (1 <= target_s_state arg <= 4 ->
      online_mask p = cpu_num_to_mask 0 ->
      thread_created p = true ->
      thread_resume_status p = ZX_OK ->
      thread_join_status p = ZX_OK ->
      let run :=
        arch_system_powerctl p ZX_SYSTEM_POWERCTL_ACPI_TRANSITION_S_STATE arg m in
      result_of run = Done (acquire_status p)
      /\ count is_release (calls_of run) = 0%nat
      /\ machine_of run = m).
Proof.
  intros Ha.
  assert (Hattempt : suspend_thread p arg m
                     = (Done (acquire_status p), m,
                        [E_x86_bootstrap16_acquire (acquire_status p) (acquire_ip p)])).
  { rewrite suspend_thread_exit, (exit_acquire_failed p Ha). reflexivity. }
  split; [exact Hattempt |].
  intros Ht Hmask Hcreate Hresume Hjoin run. subst run.
  rewrite powerctl_exit, (entry_threaded p arg Ht Hmask Hcreate Hresume).
  cbn [entry_run]. rewrite Hattempt. unfold join_run. rewrite Hjoin.
  repeat split.
Qed.

Lemma acquire_failure_returned_as_is_witness :
  result_of (arch_system_powerctl (mock 1 true ZX_ERR_NO_MEMORY AE_OK AE_OK AE_OK)
               ZX_SYSTEM_POWERCTL_ACPI_TRANSITION_S_STATE (request 3 1 2) booted)
  = Done ZX_ERR_NO_MEMORY.
Proof.
  destruct (acquire_failure_returned_as_is
              (mock 1 true ZX_ERR_NO_MEMORY AE_OK AE_OK AE_OK) (request 3 1 2) booted)
    as [_ Hentry].
  - vm_compute. discriminate.
  - apply Hentry; try reflexivity. simpl. lia.
Defined.

(** X3: when the firmware table is missing or the waking vector cannot be armed,
    the attempt returns [ZX_ERR_BAD_STATE] without having touched the
    interrupt flag and without having called any of the save, transition or
    restore primitives; the entry point returns [ZX_ERR_BAD_STATE]. *)
Theorem setup_failure_is_bad_state (p : Platform)
    (arg : zx_system_powerctl_arg_t) (m : Machine) :
  acquire_status p = ZX_OK ->
  get_table_status p <> AE_OK \/ arming_status p <> AE_OK ->
  let attempt := suspend_thread p arg m in
  result_of attempt = Done ZX_ERR_BAD_STATE
  /\ count is_suspend_work (calls_of attempt) = 0%nat
  /\ ints_enabled (machine_of attempt) = ints_enabled m
  /\ (1 <= target_s_state arg <= 4 ->
      online_mask p = cpu_num_to_mask 0 ->
      thread_created p = true ->
      thread_resume_status p = ZX_OK ->
      thread_join_status p = ZX_OK ->
      result_of (arch_system_powerctl p
                   ZX_SYSTEM_POWERCTL_ACPI_TRANSITION_S_STATE arg m)
      = Done ZX_ERR_BAD_STATE).
Proof.
  intros Ha Hsetup attempt.
  assert (Hattempt : result_of attempt = Done ZX_ERR_BAD_STATE
                     /\ count is_suspend_work (calls_of attempt) = 0%nat
                     /\ ints_enabled (machine_of attempt) = ints_enabled m).
  { subst attempt. rewrite suspend_thread_exit.
    destruct (exit_setup_failed p Ha Hsetup) as [-> | ->]; repeat split. }
  destruct Hattempt as (Hres & Hwork & Hints).
  repeat split; try assumption.
  intros Ht Hmask Hcreate Hresume Hjoin.
  rewrite powerctl_exit, (entry_threaded p arg Ht Hmask Hcreate Hresume).
  cbn [entry_run]. fold attempt.
  destruct attempt as [[r m1] t1]. unfold result_of in Hres. cbn in Hres. subst r.
  unfold join_run. now rewrite Hjoin.
Qed.

Lemma setup_failure_is_bad_state_witness :
  result_of (arch_system_powerctl table_missing
               ZX_SYSTEM_POWERCTL_ACPI_TRANSITION_S_STATE (request 3 1 2) booted)
  = Done ZX_ERR_BAD_STATE
  /\ count is_suspend_work
       (calls_of (suspend_thread arm_fails (request 3 1 2) booted)) = 0%nat.
Proof.
  split.
  - destruct (setup_failure_is_bad_state table_missing (request 3 1 2) booted)
      as (_ & _ & _ & Hentry).
    + reflexivity.
    + left. vm_compute. discriminate.
    + apply Hentry; try reflexivity. simpl. lia.
  - destruct (setup_failure_is_bad_state arm_fails (request 3 1 2) booted)
      as (_ & Hwork & _).
    + reflexivity.
    + right. vm_compute. discriminate.
    + exact Hwork.
Defined.

(** ** The hardware transition *)

(** X4: the attempt never calls the hardware transition primitive without a
    resume path: whenever the call is in the log, it comes after a successful
    bootstrap acquisition, a successful table lookup, a successful arming of
    the waking vector with the very address the acquisition returned, and the
    save primitives run with interrupts disabled.  The call carries the
    request's three bytes unchanged and the address of the attempt's own
    register-capture structure. *)
Theorem transition_only_when_armed (p : Platform) (arg : zx_system_powerctl_arg_t)
    (m : Machine) (regs : regs_ptr) (target a b : Z) (status : ACPI_STATUS) :
  In (E_x86_acpi_transition_s_state regs target a b status)
     (calls_of (suspend_thread p arg m)) ->
  in_order
    [E_x86_bootstrap16_acquire ZX_OK (acquire_ip p);
     E_AcpiGetTable AE_OK;
     E_AcpiHwSetFirmwareWakingVector (acquire_ip p) AE_OK;
     E_arch_disable_ints; E_platform_suspend; E_arch_suspend;
     E_x86_acpi_transition_s_state regs target a b status]
    (calls_of (suspend_thread p arg m))
  /\ regs = address_of suspend_thread_regs
  /\ target = target_s_state arg
  /\ a = sleep_type_a arg
  /\ b = sleep_type_b arg
  /\ status = transition_status p.
Proof.
  rewrite suspend_thread_exit. unfold calls_of. cbn [snd].
  pose proof (exit_of_cases p) as H.
  destruct (exit_of p); cbn; unfold acquire_calls;
    intros Hin;
    repeat (destruct Hin as [Hin | Hin]; [try discriminate Hin |]);
    try contradiction;
    destruct H as (Ha & _); rewrite Ha;
    injection Hin as <- <- <- <- <-;
    (split; [in_order | repeat split]).
Qed.

Lemma transition_only_when_armed_witness :
  in_order
    [E_x86_bootstrap16_acquire ZX_OK 32768;
     E_AcpiGetTable AE_OK;
     E_AcpiHwSetFirmwareWakingVector 32768 AE_OK;
     E_arch_disable_ints; E_platform_suspend; E_arch_suspend;
     E_x86_acpi_transition_s_state (address_of suspend_thread_regs) 3 1 2 AE_ERROR]
    (calls_of (suspend_thread firmware_rejects (request 3 1 2) booted)).
Proof.
  apply (transition_only_when_armed firmware_rejects (request 3 1 2) booted
           (address_of suspend_thread_regs) 3 1 2 AE_ERROR).
  vm_compute. auto 10.
Defined.

(** X5: the entry point reports success only after the firmware did: when it
    returns [ZX_OK], the command was the recognized one, the target state was
    one of the accepted ones, and the hardware transition primitive was
    called with the request's three bytes and returned [AE_OK].  Interrupts
    are enabled when it returns. *)
Theorem success_means_firmware_success (p : Platform) (cmd : Z)
    (arg : zx_system_powerctl_arg_t) (m : Machine) :
  result_of (arch_system_powerctl p cmd arg m) = Done ZX_OK ->
  cmd = ZX_SYSTEM_POWERCTL_ACPI_TRANSITION_S_STATE
  /\ target_s_state arg <> 0 /\ target_s_state arg <= 5
  /\ transition_status p = AE_OK
  /\ (exists regs,
        In (E_x86_acpi_transition_s_state regs (target_s_state arg)
              (sleep_type_a arg) (sleep_type_b arg) AE_OK)
           (calls_of (arch_system_powerctl p cmd arg m)))
  /\ ints_enabled (machine_of (arch_system_powerctl p cmd arg m)) = true.
Proof.
  rewrite powerctl_exit.
  pose proof (entry_exit_of_cases p cmd arg) as H.
  destruct (entry_exit_of p cmd arg); unfold result_of, machine_of, calls_of;
    cbn [entry_run fst snd]; intros Hok; try discriminate Hok.
  - (* the thread ran *)
    destruct H as (Hc & H0 & H5 & _).
    revert Hok. rewrite suspend_thread_exit.
    pose proof (exit_of_cases p) as Hx.
    destruct (exit_of p); unfold join_run, result_of, machine_of, calls_of;
      cbn [result_on fst snd];
      destruct (thread_join_status p =? ZX_OK); intros Hok;
      try discriminate Hok.
    + injection Hok as Hok. contradiction.
    + destruct Hx as (_ & _ & _ & Ht & _).
      repeat split; try assumption; try lia.
      exists (address_of suspend_thread_regs). cbn. rewrite Ht. auto 20.
  - (* shutdown *)
    destruct H as (Hc & H5).
    destruct (Z.eqb_spec (transition_status p) AE_OK) as [Ht|Ht];
      cbn [negb] in Hok; [| discriminate Hok].
    repeat split; try assumption; try lia.
    exists (address_of arch_system_powerctl_regs). cbn. rewrite Ht, H5. auto.
Qed.

Lemma success_means_firmware_success_witness :
  exists regs,
    In (E_x86_acpi_transition_s_state regs 3 1 2 AE_OK)
       (calls_of (arch_system_powerctl all_succeed
                    ZX_SYSTEM_POWERCTL_ACPI_TRANSITION_S_STATE (request 3 1 2) booted)).
Proof.
  apply (success_means_firmware_success all_succeed
           ZX_SYSTEM_POWERCTL_ACPI_TRANSITION_S_STATE (request 3 1 2) booted).
  reflexivity.
Defined.

(** X6: with unit 0 alone online and every collaborator succeeding -- the opaque
    primitives returning with interrupts disabled at lines 92 and 98 -- a
    resumable request returns [ZX_OK]: the thread is created, started and
    joined, and between start and join it acquires, arms, saves, sleeps,
    restores, clears and releases, in that order.  The machine ends with
    interrupts enabled, the waking vector at 0 and the bootstrap resource not
    held. *)
Theorem resumable_request_succeeds (p : Platform) (arg : zx_system_powerctl_arg_t)
    (m : Machine) :
  1 <= target_s_state arg <= 4 ->
  online_mask p = cpu_num_to_mask 0 ->
  thread_created p = true ->
  thread_resume_status p = ZX_OK ->
  thread_join_status p = ZX_OK ->
  acquire_status p = ZX_OK ->
  get_table_status p = AE_OK ->
  arming_status p = AE_OK ->
  transition_status p = AE_OK ->
  ints_at_resume p = false ->
  ints_at_restored p = false ->
  let run :=
    arch_system_powerctl p ZX_SYSTEM_POWERCTL_ACPI_TRANSITION_S_STATE arg m in
  result_of run = Done ZX_OK
  /\ calls_of run
     = [E_mp_get_online_mask (cpu_num_to_mask 0);
        E_thread_create "suspend-thread" true;
        E_thread_resume ZX_OK;
        E_x86_bootstrap16_acquire ZX_OK (acquire_ip p);
        E_AcpiGetTable AE_OK;
        E_AcpiHwSetFirmwareWakingVector (acquire_ip p) AE_OK;
        E_arch_disable_ints; E_platform_suspend; E_arch_suspend;
        E_x86_acpi_transition_s_state (address_of suspend_thread_regs)
          (target_s_state arg) (sleep_type_a arg) (sleep_type_b arg) AE_OK;
        E_arch_ints_disabled true;
        E_arch_resume; E_platform_resume; E_timer_thaw_percpu;
        E_arch_ints_disabled true;
        E_arch_enable_ints;
        E_AcpiHwSetFirmwareWakingVector 0 AE_OK;
        E_x86_bootstrap16_release;
        E_thread_join ZX_TIME_INFINITE ZX_OK ZX_OK]
  /\ ints_enabled (machine_of run) = true
  /\ waking_vector (machine_of run) = 0
  /\ bootstrap_held (machine_of run) = false.
Proof.
  intros Ht Hmask Hcreate Hresume Hjoin Ha Hg Hs Htr H1 H2 run. subst run.
  rewrite powerctl_exit, (entry_threaded p arg Ht Hmask Hcreate Hresume).
  cbn [entry_run].
  rewrite suspend_thread_exit, (exit_resumed p Ha Hg Hs Htr H1 H2).
  unfold join_run, result_of, machine_of, calls_of. cbn.
  unfold acquire_calls. rewrite Hjoin, Hmask, Hresume, Ha, Htr.
  repeat split.
Qed.

Lemma resumable_request_succeeds_witness :
  result_of (arch_system_powerctl all_succeed
               ZX_SYSTEM_POWERCTL_ACPI_TRANSITION_S_STATE (request 3 1 2) booted)
  = Done ZX_OK.
Proof.
  apply (resumable_request_succeeds all_succeed (request 3 1 2) booted);
    try reflexivity.
  simpl. lia.
Defined.

(** ** What a request leaves behind *)

(** X7: a request that returns leaves nothing behind, whatever its status: it has
    called [arch_enable_ints] as often as [arch_disable_ints] and released the
    bootstrap resource as often as it acquired it; if interrupts were enabled
    when it was made they are enabled when it returns, and if the bootstrap
    resource was not held then it is not held now. *)
Theorem returning_request_leaves_nothing (p : Platform) (cmd : Z)
    (arg : zx_system_powerctl_arg_t) (m : Machine) (r : zx_status_t) :
  result_of (arch_system_powerctl p cmd arg m) = Done r ->
  let run := arch_system_powerctl p cmd arg m in
  count is_disable_ints (calls_of run) = count is_enable_ints (calls_of run)
  /\ count is_acquired (calls_of run) = count is_release (calls_of run)
  /\ (ints_enabled m = true -> ints_enabled (machine_of run) = true)
  /\ (bootstrap_held m = false -> bootstrap_held (machine_of run) = false).
Proof.
  intros Hr run. subst run. revert Hr. rewrite powerctl_exit.
  destruct (entry_exit_of p cmd arg); unfold result_of, machine_of, calls_of;
    cbn [entry_run fst snd]; intros Hr; try discriminate Hr;
    try (repeat split; solve [auto]).
  revert Hr. rewrite suspend_thread_exit.
  pose proof (exit_of_cases p) as Hx.
  destruct (exit_of p); unfold join_run, result_of, machine_of, calls_of;
    cbn [result_on fst snd]; intros Hr; try discriminate Hr;
    unfold count; cbn.
  - apply Z.eqb_neq in Hx. rewrite Hx. repeat split; auto.
  - destruct Hx as (Ha & _). rewrite Ha. repeat split; auto.
  - destruct Hx as (Ha & _). rewrite Ha. repeat split; auto.
  - destruct Hx as (Ha & _). rewrite Ha. repeat split; auto.
  - destruct Hx as (Ha & _). rewrite Ha. repeat split; auto.
Qed.

Lemma returning_request_leaves_nothing_witness :
  bootstrap_held
    (machine_of (arch_system_powerctl firmware_rejects
                   ZX_SYSTEM_POWERCTL_ACPI_TRANSITION_S_STATE (request 3 1 2) booted))
  = false.
Proof.
  destruct (returning_request_leaves_nothing firmware_rejects
              ZX_SYSTEM_POWERCTL_ACPI_TRANSITION_S_STATE (request 3 1 2) booted
              ZX_ERR_INTERNAL)
    as (_ & _ & _ & Hheld).
  - reflexivity.
  - apply Hheld. reflexivity.
Defined.

(** X8: no call is ever repeated: in one request the thread is created at most
    once, the bootstrap resource acquired and released at most once,
    interrupts disabled at most once and the hardware transition primitive
    called at most once, whatever the collaborators answer. *)
Theorem nothing_is_retried (p : Platform) (cmd : Z)
    (arg : zx_system_powerctl_arg_t) (m : Machine) :
  let calls := calls_of (arch_system_powerctl p cmd arg m) in
  (count is_mask_query calls <= 1)%nat
  /\ (count is_thread_create calls <= 1)%nat
  /\ (count is_acquire calls <= 1)%nat
  /\ (count is_release calls <= 1)%nat
  /\ (count is_disable_ints calls <= 1)%nat
  /\ (count is_transition calls <= 1)%nat.
Proof.
  intros calls. subst calls. rewrite powerctl_exit.
  destruct (entry_exit_of p cmd arg); unfold calls_of; cbn [entry_run snd];
    try (unfold count; cbn; lia).
  rewrite suspend_thread_exit.
  destruct (exit_of p); unfold join_run, calls_of; cbn [result_on snd];
    unfold count; cbn; lia.
Qed.






(** ** Interrupts *)

Example outside_window_sees_a_masked_release :
  outside_window false
    [E_arch_disable_ints; E_x86_bootstrap16_release; E_arch_enable_ints] = false.
Proof. reflexivity. Qed.

(** X11: resources are never handled with interrupts disabled: in every run of the
    entry point, the thread calls, the bootstrap acquisition and release, the
    table lookup and the setting and clearing of the waking vector all lie
    outside the stretch between [arch_disable_ints] and [arch_enable_ints].
    In particular the two guards run only after interrupts are enabled
    again. *)
Theorem resources_handled_with_interrupts_enabled (p : Platform) (cmd : Z)
    (arg : zx_system_powerctl_arg_t) (m : Machine) :
  outside_window false (calls_of (arch_system_powerctl p cmd arg m)) = true.
Proof.
  rewrite powerctl_exit.
  destruct (entry_exit_of p cmd arg); unfold calls_of; cbn [entry_run snd];
    try reflexivity.
  rewrite suspend_thread_exit.
  destruct (exit_of p); unfold join_run, calls_of; cbn [result_on snd];
    reflexivity.
Qed.

(** X12: in a build that implements [DEBUG_ASSERT]: when the transition primitive
    reports success but returns with interrupts enabled, the assertion of
    line 92 stops the kernel.  No status is returned, none of [arch_resume],
    [platform_resume] and [timer_thaw_percpu] has been called, and the last
    call is the failed query. *)
Theorem resume_with_interrupts_enabled_stops (p : Platform)
    (arg : zx_system_powerctl_arg_t) (m : Machine) :
  acquire_status p = ZX_OK ->
  get_table_status p = AE_OK ->
  arming_status p = AE_OK ->
  transition_status p = AE_OK ->
  ints_at_resume p = true ->
  let attempt := suspend_thread p arg m in
  result_of attempt = Panic
  /\ count is_restore (calls_of attempt) = 0%nat
  /\ exists before,
       calls_of attempt
       = before
         ++ [E_x86_acpi_transition_s_state (address_of suspend_thread_regs)
               (target_s_state arg) (sleep_type_a arg) (sleep_type_b arg) AE_OK;
             E_arch_ints_disabled false].
Proof.
  intros Ha Hg Hs Ht H1 attempt. subst attempt.
  assert (Hexit : exit_of p = ResumeAssertFailed).
  { unfold exit_of. now rewrite Ha, Hg, Hs, Ht, H1. }
  rewrite suspend_thread_exit, Hexit.
  unfold result_of, calls_of. cbn. rewrite Ht.
  repeat split.
  eexists [_; _; _; _; _; _]. reflexivity.
Qed.

Lemma resume_with_interrupts_enabled_stops_witness :
  result_of
    (suspend_thread
       {| online_mask := 1; thread_created := true;
          thread_resume_status := ZX_OK; thread_join_status := ZX_OK;
          acquire_status := ZX_OK; acquire_ip := 32768;
          get_table_status := AE_OK; set_vector_status := AE_OK;
          transition_status := AE_OK;
          ints_after := fun o b =>
            match o with op_x86_acpi_transition_s_state => true | _ => b end |}
       (request 3 1 2) booted)
  = Panic.
Proof.
  apply (resume_with_interrupts_enabled_stops
           {| online_mask := 1; thread_created := true;
              thread_resume_status := ZX_OK; thread_join_status := ZX_OK;
              acquire_status := ZX_OK; acquire_ip := 32768;
              get_table_status := AE_OK; set_vector_status := AE_OK;
              transition_status := AE_OK;
              ints_after := fun o b =>
                match o with op_x86_acpi_transition_s_state => true | _ => b end |}
           (request 3 1 2) booted); reflexivity.
Defined.
